(** * Wolfgank AI SEO tools: the generation router of [app.py]

    A shallow embedding of the text-generation fallback layer
    ([initialize_hf_pipeline], [generate_text]) and of the JSON request
    handlers that call it, followed by the properties the specification
    states about them.

    Conventions of the embedding:
    - a Python [str] is a [string]; its characters are code points below 256;
    - an exception (an instance of [Exception]) is represented by the text
      [str(e)] that the f-strings of the program print;
    - the module's global variables are the fields of [state]; the local
      variables of [generate_text] are the fields of [frame];
    - everything outside the program (the Ollama service, the transformers
      library, the clock) is a field of [World]; a reply may change from one
      call to the next, so each of them is indexed by the number of events
      that happened before the call. *)

From Stdlib Require Import String Ascii List Bool Arith ZArith Lia.
Import ListNotations.
Local Open Scope string_scope.

Set Implicit Arguments.

(** ** Python strings *)

Module PyStr.

(** The line feed written [\n] in the program's literals. *)
Definition nl : string := String (ascii_of_nat 10) EmptyString.

(** [s.startswith(p)] *)
Definition startswith (s p : string) : bool := String.prefix p s.

(** [s[n:]] *)
Fixpoint slice_from (n : nat) (s : string) : string :=
  match n, s with
  | O, _ => s
  | S _, EmptyString => EmptyString
  | S n', String _ s' => slice_from n' s'
  end.

(** [s[:n]] *)
Fixpoint slice_to (n : nat) (s : string) : string :=
  match n, s with
  | O, _ => EmptyString
  | S _, EmptyString => EmptyString
  | S n', String c s' => String c (slice_to n' s')
  end.

(** [c.isspace()] on the code points below 256: TAB, LF, VT, FF, CR,
    FS, GS, RS, US, SPACE, NEL and NBSP. *)
Definition isspace (c : ascii) : bool :=
  let n := nat_of_ascii c in
  (((9 <=? n) && (n <=? 13)) || ((28 <=? n) && (n <=? 32))
   || (n =? 133) || (n =? 160))%nat.

(** [s.lstrip()] *)
Fixpoint lstrip (s : string) : string :=
  match s with
  | EmptyString => EmptyString
  | String c s' => if isspace c then lstrip s' else s
  end.

(** [needle in hay] *)
Fixpoint str_in (needle hay : string) : bool :=
  String.prefix needle hay
  || match hay with
     | EmptyString => false
     | String _ hay' => str_in needle hay'
     end.

(** Membership of one character. *)
Fixpoint has_char (c : ascii) (s : string) : bool :=
  match s with
  | EmptyString => false
  | String d s' => Ascii.eqb c d || has_char c s'
  end.

(** Truth value of a string: [bool(s)]. *)
Definition truthy (s : string) : bool :=
  match s with EmptyString => false | String _ _ => true end.

End PyStr.
Import PyStr.

(** ** Results of calls that may raise *)

Inductive result (A : Type) : Type :=
| Ok (a : A)
| Raise (e : string).
Arguments Ok {A} a.
Arguments Raise {A} e.

(** ** A state and exception monad *)

Definition M (S A : Type) : Type := S -> result A * S.

Definition ret {S A} (a : A) : M S A := fun s => (Ok a, s).

Definition bind {S A B} (m : M S A) (k : A -> M S B) : M S B :=
  fun s => match m s with
           | (Ok a, s') => k a s'
           | (Raise e, s') => (Raise e, s')
           end.

Definition raise {S A} (e : string) : M S A := fun s => (Raise e, s).

(** [try: m  except Exception as e: h e]: the state reached when the
    exception was raised is the one the handler starts from. *)
Definition try_catch {S A} (m : M S A) (h : string -> M S A) : M S A :=
  fun s => match m s with
           | (Ok a, s') => (Ok a, s')
           | (Raise e, s') => h e s'
           end.

Definition gets {S A} (f : S -> A) : M S A := fun s => (Ok (f s), s).
Definition modify {S} (f : S -> S) : M S unit := fun s => (Ok tt, f s).
Definition of_result {S A} (r : result A) : M S A := fun s => (r, s).

Declare Scope monad_scope.
Delimit Scope monad_scope with monad.
Notation "x <- m ;; k" := (bind m (fun x => k))
  (at level 61, m at next level, right associativity) : monad_scope.
Notation "m ;; k" := (bind m (fun _ => k))
  (at level 61, right associativity) : monad_scope.
Local Open Scope monad_scope.

(** ** The outside world and the program state *)

(** The object [transformers.pipeline(...)] returns.  The program tests it
    both with [is None] and with its truth value, so the truth value of the
    object is part of the model. *)
Record Pipeline : Type := mkPipeline {
  pl_truthy : bool;
  (** [hf_pipeline(prompt, max_length=700, num_return_sequences=1,
      truncation=True)[0]['generated_text']] *)
  pl_call : nat -> string -> result string
}.

(** [datetime.now()] *)
Record datetime : Type := mkDatetime {
  year : nat; month : nat; day : nat;
  hour : nat; minute : nat; second : nat
}.

Record World : Type := mkWorld {
  (** set at import time by the [try: from transformers import pipeline] *)
  TRANSFORMERS_AVAILABLE : bool;
  (** [ollama.list()] *)
  ollama_list : nat -> result unit;
  (** [ollama.chat(model=OLLAMA_MODEL, messages=[...])['message']['content']] *)
  ollama_chat : nat -> string -> result string;
  (** [pipeline("text-generation", model=HF_MODEL_FALLBACK, ...)] *)
  pipeline : nat -> result Pipeline;
  datetime_now : nat -> datetime
}.

Inductive level : Type := INFO | WARNING | ERROR.

Inductive backend : Type := Primary | Secondary.

(** What a run leaves behind: the log, and the calls made to the outside
    with their replies. *)
Inductive event : Type :=
| Log (lvl : level) (msg : string)
| Probe (reply : result unit)
| Invoke (b : backend) (prompt : string) (reply : result string)
| EnterInit
| Construct (reply : result Pipeline).

Record state : Type := mkState {
  ollama_available : bool;
  hf_pipeline : option Pipeline;
  GENERATION_METHOD : string;
  (** newest first *)
  events : list event
}.

Definition OLLAMA_MODEL : string := "gemma3:1b".
Definition HF_MODEL_FALLBACK : string := "google/gemma-2b".

(** The module just after its top-level assignments. *)
Definition initial_state : state :=
  {| ollama_available := false; hf_pipeline := None;
     GENERATION_METHOD := "None"; events := [] |}.

Definition set_ollama_available (b : bool) (s : state) : state :=
  {| ollama_available := b; hf_pipeline := hf_pipeline s;
     GENERATION_METHOD := GENERATION_METHOD s; events := events s |}.
Definition set_hf_pipeline (p : option Pipeline) (s : state) : state :=
  {| ollama_available := ollama_available s; hf_pipeline := p;
     GENERATION_METHOD := GENERATION_METHOD s; events := events s |}.
Definition set_GENERATION_METHOD (m : string) (s : state) : state :=
  {| ollama_available := ollama_available s; hf_pipeline := hf_pipeline s;
     GENERATION_METHOD := m; events := events s |}.
Definition push (e : event) (s : state) : state :=
  {| ollama_available := ollama_available s; hf_pipeline := hf_pipeline s;
     GENERATION_METHOD := GENERATION_METHOD s; events := e :: events s |}.

Definition emit (e : event) : M state unit := modify (push e).
Definition logging (lvl : level) (msg : string) : M state unit :=
  emit (Log lvl msg).
Definition tick : M state nat := gets (fun s => length (events s)).

(** ** [datetime.now().strftime("%Y-%m-%d %H:%M:%S")] *)

Definition digit (n : nat) : ascii := ascii_of_nat (48 + n mod 10).

Definition two_digits (n : nat) : string :=
  String (digit (n / 10)) (String (digit n) EmptyString).

Definition four_digits (n : nat) : string :=
  String (digit (n / 1000)) (String (digit (n / 100)) (two_digits n)).

Definition strftime (d : datetime) : string :=
  four_digits (year d) ++ "-" ++ two_digits (month d) ++ "-"
  ++ two_digits (day d) ++ " " ++ two_digits (hour d) ++ ":"
  ++ two_digits (minute d) ++ ":" ++ two_digits (second d).

(** ** The generation layer *)

(** Local variables of [generate_text]. *)
Record frame : Type := mkFrame {
  result_text : string;
  source : string;
  error_message : option string
}.

(** [bool(x)] for a value that is [None] or a string. *)
Definition opt_truthy (o : option string) : bool :=
  match o with None => false | Some m => truthy m end.

(** [x or d] for a value that is [None] or a string. *)
Definition py_or (o : option string) (d : string) : string :=
  match o with
  | Some m => if truthy m then m else d
  | None => d
  end.

(** [bool(hf_pipeline)]: [None] is false, an object has its own truth
    value. *)
Definition pipeline_truthy (h : option Pipeline) : bool :=
  match h with None => false | Some pl => pl_truthy pl end.

(** [hf_pipeline is None] *)
Definition is_None {A} (h : option A) : bool :=
  match h with None => true | Some _ => false end.

Definition lift {A} (m : M state A) : M (state * frame) A :=
  fun sf => let (r, s') := m (fst sf) in (r, (s', snd sf)).

Definition local {A} (f : frame -> A) : M (state * frame) A :=
  gets (fun sf => f (snd sf)).

Definition assign_result_text (x : string) : M (state * frame) unit :=
  modify (fun sf => (fst sf, {| result_text := x; source := source (snd sf);
                                error_message := error_message (snd sf) |})).
Definition assign_source (x : string) : M (state * frame) unit :=
  modify (fun sf => (fst sf, {| result_text := result_text (snd sf); source := x;
                                error_message := error_message (snd sf) |})).
Definition assign_error_message (x : option string) : M (state * frame) unit :=
  modify (fun sf => (fst sf, {| result_text := result_text (snd sf);
                                source := source (snd sf); error_message := x |})).

(** Lines 85 to 87: the locals as [generate_text] first binds them. *)
Definition initial_frame : frame :=
  {| result_text := ""; source := "Unknown"; error_message := None |}.

(** The two values [source] takes before an error: lines 91 and 97. *)
Definition source_label (b : backend) : string :=
  match b with
  | Primary => "Ollama (" ++ OLLAMA_MODEL ++ ")"
  | Secondary => "Hugging Face (" ++ HF_MODEL_FALLBACK ++ ")"
  end.

(** The f-string of line 135. *)
Definition branded_result (tool_name src timestamp text : string) : string :=
  "--- Wolfgank AI [" ++ tool_name ++ "] Result (" ++ src ++ " @ "
  ++ timestamp ++ ") ---" ++ nl ++ nl ++ text ++ nl ++ nl
  ++ "--- End of Report ---".

(** The f-string of line 148. *)
Definition error_report (timestamp final_error_message info : string) : string :=
  "--- Wolfgank AI Error (" ++ timestamp ++ ") ---" ++ nl ++ nl
  ++ final_error_message ++ info ++ nl
  ++ "Please check logs and model availability." ++ nl ++ nl
  ++ "--- End of Report ---".

Section Generation.

Variable w : World.

(** [ollama.chat(...)] and the subscripts that read its reply. *)
Definition call_ollama_chat (prompt : string) : M state string :=
  n <- tick ;;
  emit (Invoke Primary prompt (ollama_chat w n prompt)) ;;
  of_result (ollama_chat w n prompt).

(** [pipeline("text-generation", ...)] *)
Definition call_pipeline : M state Pipeline :=
  n <- tick ;;
  emit (Construct (pipeline w n)) ;;
  of_result (pipeline w n).

(** [hf_pipeline(prompt, ...)] and the subscripts that read its reply. *)
Definition call_hf_pipeline (prompt : string) : M state string :=
  h <- gets hf_pipeline ;;
  match h with
  | Some pl =>
      n <- tick ;;
      emit (Invoke Secondary prompt (pl_call pl n prompt)) ;;
      of_result (pl_call pl n prompt)
  | None => raise "'NoneType' object is not callable"
  end.

Definition now_strftime : M state string :=
  n <- tick ;;
  ret (strftime (datetime_now w n)).

(** Lines 53 to 80.  [EnterInit] marks the entry into the function; it is
    not something the program writes. *)
Definition initialize_hf_pipeline : M state bool :=
  emit EnterInit ;;
  if negb (TRANSFORMERS_AVAILABLE w) then
    logging ERROR
      "Transformers library not installed. Cannot initialize Hugging Face pipeline." ;;
    modify (set_GENERATION_METHOD "Error: Transformers Missing") ;;
    ret false
  else
    h <- gets hf_pipeline ;;
    if is_None h then
      try_catch
        (logging INFO ("Initializing Hugging Face fallback pipeline with model: "
                       ++ HF_MODEL_FALLBACK ++ "...") ;;
         pl <- call_pipeline ;;
         modify (set_hf_pipeline (Some pl)) ;;
         logging INFO "Hugging Face pipeline initialized successfully." ;;
         modify (set_GENERATION_METHOD "Hugging Face") ;;
         ret true)
        (fun e =>
           logging ERROR ("Failed to initialize Hugging Face pipeline ("
                          ++ HF_MODEL_FALLBACK ++ "): " ++ e) ;;
           modify (set_hf_pipeline None) ;;
           modify (set_GENERATION_METHOD "Error: HF Init Failed") ;;
           ret false)
    else ret true.

(** Lines 90 to 125: the body of the [try]. *)
Definition generate_try (prompt tool_name : string) : M (state * frame) unit :=
  avail <- lift (gets ollama_available) ;;
  if avail then
    assign_source (source_label Primary) ;;
    src <- local source ;;
    lift (logging INFO ("Attempting generation via " ++ src ++ " for "
                        ++ tool_name ++ "...")) ;;
    content <- lift (call_ollama_chat prompt) ;;
    assign_result_text content ;;
    lift (logging INFO ("Received response from " ++ src ++ " for "
                        ++ tool_name ++ "."))
  else if TRANSFORMERS_AVAILABLE w then
    assign_source (source_label Secondary) ;;
    src <- local source ;;
    lift (logging INFO ("Ollama unavailable. Attempting generation via " ++ src
                        ++ " for " ++ tool_name ++ "...")) ;;
    h <- lift (gets hf_pipeline) ;;
    (if is_None h then
       ok <- lift initialize_hf_pipeline ;;
       if negb ok then
         let msg := "Error: Failed to initialize Hugging Face fallback model ("
                    ++ HF_MODEL_FALLBACK ++ ")." in
         assign_error_message (Some msg) ;;
         lift (logging ERROR msg) ;;
         assign_source "Error"
       else ret tt
     else ret tt) ;;
    h <- lift (gets hf_pipeline) ;;
    if pipeline_truthy h then
      generated <- lift (call_hf_pipeline prompt) ;;
      assign_result_text generated ;;
      (if startswith generated prompt
       then assign_result_text (lstrip (slice_from (String.length prompt) generated))
       else ret tt) ;;
      src <- local source ;;
      lift (logging INFO ("Received response from " ++ src ++ " for "
                          ++ tool_name ++ "."))
    else
      msg <- local error_message ;;
      if negb (opt_truthy msg) then
        let msg :=
          "Error: Hugging Face pipeline is not available after initialization attempt." in
        assign_error_message (Some msg) ;;
        lift (logging ERROR msg) ;;
        assign_source "Error"
      else ret tt
  else
    let msg :=
      "Error: Ollama is unavailable and the Transformers library is not installed. Cannot generate text." in
    assign_error_message (Some msg) ;;
    lift (logging ERROR msg) ;;
    assign_source "Error".

(** Lines 127 to 130: the [except Exception as e] clause. *)
Definition generate_except (tool_name e : string) : M (state * frame) unit :=
  src <- local source ;;
  lift (logging ERROR ("Error during text generation via " ++ src ++ " for "
                       ++ tool_name ++ ": " ++ e)) ;;
  assign_error_message
    (Some ("Error during text generation using " ++ src ++ ": " ++ e)) ;;
  assign_source "Error".

(** Lines 139 to 145. *)
Definition fallback_info (s : state) : string :=
  if startswith (GENERATION_METHOD s) "Error" then
    " Fallback Status: " ++ GENERATION_METHOD s ++ "."
  else if negb (ollama_available s) && negb (TRANSFORMERS_AVAILABLE w) then
    " Fallback attempted but Transformers library is missing."
  else if negb (ollama_available s) && is_None (hf_pipeline s) then
    " Fallback attempted but HF model (" ++ HF_MODEL_FALLBACK
    ++ ") failed to initialize."
  else "".

(** Lines 133 to 148. *)
Definition generate_format (tool_name : string) : M (state * frame) string :=
  timestamp <- lift now_strftime ;;
  src <- local source ;;
  if negb (src =? "Error") then
    text <- local result_text ;;
    ret (branded_result tool_name src timestamp text)
  else
    info <- lift (gets fallback_info) ;;
    msg <- local error_message ;;
    let final_error_message :=
      py_or msg "An unknown error occurred during text generation." in
    ret (error_report timestamp final_error_message info).

(** Lines 89 to 130: the [try] statement. *)
Definition generate_attempt (prompt tool_name : string) : M (state * frame) unit :=
  try_catch (generate_try prompt tool_name) (generate_except tool_name).

(** The whole body of [generate_text], on its globals and locals. *)
Definition generate_frame (prompt tool_name : string) : M (state * frame) string :=
  generate_attempt prompt tool_name ;;
  generate_format tool_name.

(** [generate_text(prompt, tool_name)] *)
Definition generate_text (prompt tool_name : string) : M state string :=
  fun s => let (r, sf) := generate_frame prompt tool_name (s, initial_frame) in
           (r, fst sf).

(** The locals when the [try] statement is over: the outcome the report is
    formatted from. *)
Definition generate_outcome (prompt tool_name : string) (s : state) : frame :=
  snd (snd (generate_attempt prompt tool_name (s, initial_frame))).

(** The globals when the [try] statement is over. *)
Definition generate_state (prompt tool_name : string) (s : state) : state :=
  fst (snd (generate_attempt prompt tool_name (s, initial_frame))).

(** Lines 266 to 281: the main block up to the start of the server. *)
Definition startup : M state unit :=
  try_catch
    (logging INFO ("Checking Ollama availability (Model: " ++ OLLAMA_MODEL ++ ")...") ;;
     n <- tick ;;
     emit (Probe (ollama_list w n)) ;;
     of_result (ollama_list w n) ;;
     modify (set_ollama_available true) ;;
     modify (set_GENERATION_METHOD (source_label Primary)) ;;
     gm <- gets GENERATION_METHOD ;;
     logging INFO ("Ollama service detected. Using primary generation method: " ++ gm))
    (fun e =>
       modify (set_ollama_available false) ;;
       logging WARNING ("Could not connect to Ollama. Will attempt Hugging Face fallback. Error: " ++ e) ;;
       initialize_hf_pipeline ;;
       ret tt) ;;
  gm <- gets GENERATION_METHOD ;;
  logging INFO ("Starting Flask server. Text Generation active method: " ++ gm).

End Generation.

(** ** The request handlers *)

(** What [request.get_json()] can hand to a handler: the Python image of a
    JSON document whose numbers are integers.  A [PDict] lists the bindings
    of a dict, each key once. *)
#[local] Set Warnings "-register-all".

Inductive pyval : Type :=
| PNone
| PBool (b : bool)
| PInt (z : Z)
| PStr (s : string)
| PList (l : list pyval)
| PDict (d : list (string * pyval)).

(** [bool(v)] *)
Definition py_truthy (v : pyval) : bool :=
  match v with
  | PNone => false
  | PBool b => b
  | PInt z => negb (Z.eqb z 0)
  | PStr s => truthy s
  | PList l => match l with [] => false | _ :: _ => true end
  | PDict d => match d with [] => false | _ :: _ => true end
  end.

(** [type(v).__name__] *)
Definition type_name (v : pyval) : string :=
  match v with
  | PNone => "NoneType"
  | PBool _ => "bool"
  | PInt _ => "int"
  | PStr _ => "str"
  | PList _ => "list"
  | PDict _ => "dict"
  end.

Fixpoint lookup (key : string) (d : list (string * pyval)) : option pyval :=
  match d with
  | [] => None
  | (k, v) :: d' => if String.eqb key k then Some v else lookup key d'
  end.

(** [jsonify({key: text}), status] *)
Record response : Type := mkResponse {
  status : nat;
  body : string * string
}.

Definition jsonify (key text : string) (code : nat) : response :=
  {| status := code; body := (key, text) |}.

Section Handlers.

Variable w : World.

(** [str(v)] for a value that is not a string: the text an f-string prints
    for it.  The builtin is not part of the program. *)
Variable str_of_object : pyval -> string.

(** The text of the exception [v[:1000]] raises for a value that cannot be
    sliced.  It depends on the interpreter. *)
Variable subscript_error : pyval -> string.

(** [f"{v}"] *)
Definition py_str (v : pyval) : string :=
  match v with
  | PStr s => s
  | _ => str_of_object v
  end.

(** [data.get(key, default)] *)
Definition dict_get (data : pyval) (key : string) (default : pyval)
  : M state pyval :=
  match data with
  | PDict d => ret (match lookup key d with Some v => v | None => default end)
  | _ => raise ("'" ++ type_name data ++ "' object has no attribute 'get'")
  end.

(** [v[:1000]] *)
Definition slice_1000 (v : pyval) : M state pyval :=
  match v with
  | PStr s => ret (PStr (slice_to 1000 s))
  | PList l => ret (PList (firstn 1000 l))
  | _ => raise (subscript_error v)
  end.

(** The last three statements of every handler's [try] block. *)
Definition respond (result : string) : response :=
  if str_in "--- Wolfgank AI Error" result
  then jsonify "error" result 500
  else jsonify "result" result 200.

(** Lines 165 to 182.  [request] is what [request.get_json()] does: it
    returns the parsed document or raises. *)
Definition keyword_hunter (request : result pyval) : M state response :=
  try_catch
    (data <- of_result request ;;
     topic <- dict_get data "topic" PNone ;;
     if negb (py_truthy topic) then ret (jsonify "error" "Topik diperlukan." 400)
     else
       let base_prompt :=
         "Berikan daftar 15-20 kata kunci SEO long-tail yang relevan untuk topik: '"
         ++ py_str topic
         ++ "'. Kategorikan kata kunci ini (misalnya, Informatif, Navigasi, Transaksional, Komersial). Fokus pada Bahasa Indonesia. Format sebagai daftar." in
       result <- generate_text w base_prompt "Keyword Hunter" ;;
       ret (respond result))
    (fun e =>
       logging ERROR ("Error in /api/keyword-hunter endpoint: " ++ e) ;;
       ret (jsonify "error" ("Terjadi kesalahan server: " ++ e) 500)).

(** Lines 185 to 200. *)
Definition meta_master (request : result pyval) : M state response :=
  try_catch
    (data <- of_result request ;;
     content <- dict_get data "content" PNone ;;
     keywords <- dict_get data "keywords" (PStr "") ;;
     if negb (py_truthy content) then ret (jsonify "error" "Konten diperlukan." 400)
     else
       head <- slice_1000 content ;;
       let base_prompt :=
         "Buatlah Judul SEO (Meta Title) yang menarik (maksimal 60 karakter) dan Deskripsi Meta (Meta Description) yang efektif (maksimal 160 karakter) dalam Bahasa Indonesia untuk konten berikut. Jika ada, pertimbangkan kata kunci ini: '"
         ++ py_str keywords ++ "'." ++ nl ++ nl ++ "Konten:" ++ nl
         ++ py_str head ++ "..." in
       result <- generate_text w base_prompt "Meta Master" ;;
       ret (respond result))
    (fun e =>
       logging ERROR ("Error in /api/meta-master endpoint: " ++ e) ;;
       ret (jsonify "error" ("Terjadi kesalahan server: " ++ e) 500)).

(** Lines 202 to 217. *)
Definition article_forge (request : result pyval) : M state response :=
  try_catch
    (data <- of_result request ;;
     topic <- dict_get data "topic" PNone ;;
     keywords <- dict_get data "keywords" (PStr "") ;;
     if negb (py_truthy topic) then ret (jsonify "error" "Topik diperlukan." 400)
     else
       let base_prompt :=
         "Tulis draf artikel blog SEO-friendly sekitar 500-700 kata dalam Bahasa Indonesia tentang topik '"
         ++ py_str topic
         ++ "'. Masukkan kata kunci berikut secara alami jika memungkinkan: '"
         ++ py_str keywords
         ++ "'. Sertakan judul, pendahuluan, beberapa subjudul (H2), dan kesimpulan." in
       result <- generate_text w base_prompt "Article Forge" ;;
       ret (respond result))
    (fun e =>
       logging ERROR ("Error in /api/article-forge endpoint: " ++ e) ;;
       ret (jsonify "error" ("Terjadi kesalahan server: " ++ e) 500)).

(** Lines 220 to 236. *)
Definition seo_analyzer (request : result pyval) : M state response :=
  try_catch
    (data <- of_result request ;;
     url <- dict_get data "url" PNone ;;
     if negb (py_truthy url) then ret (jsonify "error" "URL diperlukan." 400)
     else
       let simulated_analysis :=
         "Analisis SEO Awal untuk " ++ py_str url ++ ":" ++ nl
         ++ "- Kecepatan Muat: (Perlu alat eksternal)" ++ nl
         ++ "- Responsif Seluler: (Perlu alat eksternal)" ++ nl
         ++ "- Tag Judul: (Ambil dari sumber halaman jika memungkinkan)" ++ nl
         ++ "- Deskripsi Meta: (Ambil dari sumber halaman jika memungkinkan)" ++ nl
         ++ "- Penggunaan HTTPS: Ya" ++ nl
         ++ "- Tautan Rusak: (Perlu pemeriksaan tautan)" ++ nl ++ nl
         ++ "(Analisis ini disimulasikan.)" in
       let base_prompt :=
         "Anda adalah asisten SEO. Berdasarkan URL '" ++ py_str url
         ++ "' dan analisis awal (simulasi) ini:" ++ nl ++ simulated_analysis
         ++ nl ++ nl
         ++ "Berikan ringkasan singkat tentang potensi masalah SEO on-page utama dan saran perbaikan umum dalam Bahasa Indonesia. Fokus pada aspek yang dapat dievaluasi dari data yang diberikan atau pengetahuan SEO umum." in
       result <- generate_text w base_prompt "SEO Analyzer" ;;
       ret (respond result))
    (fun e =>
       logging ERROR ("Error in /api/seo-analyzer endpoint: " ++ e) ;;
       ret (jsonify "error" ("Terjadi kesalahan server: " ++ e) 500)).

(** Lines 239 to 261.  The snippets are joined with a backslash followed by
    the letter n, as the program writes it. *)
Definition news_radar (request : result pyval) : M state response :=
  try_catch
    (data <- of_result request ;;
     search_query <- dict_get data "search_query" PNone ;;
     if negb (py_truthy search_query)
     then ret (jsonify "error" "Query pencarian diperlukan." 400)
     else
       let simulated_news_snippets :=
         [ "Tren pencarian untuk '" ++ py_str search_query
           ++ "' meningkat di Google Trends minggu ini.";
           "Sebuah artikel di Kompasiana membahas dampak '" ++ py_str search_query
           ++ "' pada UMKM lokal.";
           "Pemerintah mengumumkan regulasi baru yang mungkin mempengaruhi industri terkait '"
           ++ py_str search_query ++ "'." ] in
       let news_context := String.concat "\n" simulated_news_snippets in
       let base_prompt :=
         "Topik/Kata Kunci Pencarian Berita: '" ++ py_str search_query ++ "'" ++ nl
         ++ "Berikut adalah beberapa rangkuman berita/informasi terkini yang relevan (simulasi):"
         ++ nl ++ news_context ++ nl
         ++ "Berikan analisis singkat mengenai berita ini dalam Bahasa Indonesia. Apa implikasinya dari sudut pandang SEO atau konten? Apa tren utama yang terlihat?" in
       result <- generate_text w base_prompt "News Radar" ;;
       ret (respond result))
    (fun e =>
       logging ERROR ("Error in /api/news-radar endpoint: " ++ e) ;;
       ret (jsonify "error" ("Terjadi kesalahan server: " ++ e) 500)).

(** The routes of the API: the handler, the field it requires, the message
    of its 400 response and its tool label. *)
Record endpoint : Type := mkEndpoint {
  ep_handler : result pyval -> M state response;
  ep_field : string;
  ep_missing : string;
  ep_tool : string
}.

Definition endpoints : list endpoint :=
  [ mkEndpoint keyword_hunter "topic" "Topik diperlukan." "Keyword Hunter";
    mkEndpoint meta_master "content" "Konten diperlukan." "Meta Master";
    mkEndpoint article_forge "topic" "Topik diperlukan." "Article Forge";
    mkEndpoint seo_analyzer "url" "URL diperlukan." "SEO Analyzer";
    mkEndpoint news_radar "search_query" "Query pencarian diperlukan." "News Radar" ].

End Handlers.

(** ** Observing a run *)

Definition error_marker : string := "--- Wolfgank AI Error".
Definition closing_marker : string := "--- End of Report ---".

(** The events a run from [s] to [s'] added, newest first. *)
Definition events_since (s s' : state) : list event :=
  firstn (length (events s') - length (events s)) (events s').

Definition backend_eqb (a b : backend) : bool :=
  match a, b with
  | Primary, Primary | Secondary, Secondary => true
  | _, _ => false
  end.

Definition is_invoke (b : backend) (e : event) : bool :=
  match e with Invoke b' _ _ => backend_eqb b b' | _ => false end.

Definition is_backend_call (e : event) : bool :=
  match e with Invoke _ _ _ => true | _ => false end.

Definition is_enter_init (e : event) : bool :=
  match e with EnterInit => true | _ => false end.

Definition is_construct (e : event) : bool :=
  match e with Construct _ => true | _ => false end.

Definition is_error_log (e : event) : bool :=
  match e with Log ERROR _ => true | _ => false end.

Definition count {A} (f : A -> bool) (l : list A) : nat := length (filter f l).

(** The value, the final globals of a call of [generate_text]. *)
Definition returned (w : World) (prompt tool_name : string) (s : state)
  : result string := fst (generate_text w prompt tool_name s).
Definition after (w : World) (prompt tool_name : string) (s : state)
  : state := snd (generate_text w prompt tool_name s).

(** The states the program can be in: the module as imported, with or
    without the main block run, followed by any number of calls and log
    lines. *)
Inductive reachable (w : World) : state -> Prop :=
| reach_import : reachable w initial_state
| reach_startup s : reachable w s -> reachable w (snd (startup w s))
| reach_initialize s :
    reachable w s -> reachable w (snd (initialize_hf_pipeline w s))
| reach_generate s prompt tool_name :
    reachable w s -> reachable w (snd (generate_text w prompt tool_name s))
| reach_log s lvl msg : reachable w s -> reachable w (push (Log lvl msg) s).

(** ** The texts the program logs and reports *)

(** Lines 92 and 98. *)
Definition log_attempt (b : backend) (tool_name : string) : string :=
  match b with
  | Primary => "Attempting generation via " ++ source_label Primary
               ++ " for " ++ tool_name ++ "..."
  | Secondary => "Ollama unavailable. Attempting generation via "
                 ++ source_label Secondary ++ " for " ++ tool_name ++ "..."
  end.

(** Lines 95 and 116. *)
Definition log_received (b : backend) (tool_name : string) : string :=
  "Received response from " ++ source_label b ++ " for " ++ tool_name ++ ".".

(** Lines 63, 72 and 76. *)
Definition log_init_start : string :=
  "Initializing Hugging Face fallback pipeline with model: "
  ++ HF_MODEL_FALLBACK ++ "...".
Definition log_init_ok : string :=
  "Hugging Face pipeline initialized successfully.".
Definition log_init_error (e : string) : string :=
  "Failed to initialize Hugging Face pipeline (" ++ HF_MODEL_FALLBACK
  ++ "): " ++ e.

(** Line 123: neither backend exists. *)
Definition msg_no_backend : string :=
  "Error: Ollama is unavailable and the Transformers library is not installed. Cannot generate text.".

(** Line 102: the initialization made by this call failed. *)
Definition msg_init_failed : string :=
  "Error: Failed to initialize Hugging Face fallback model ("
  ++ HF_MODEL_FALLBACK ++ ").".

(** Line 118: no usable pipeline, and no initialization error. *)
Definition msg_not_available : string :=
  "Error: Hugging Face pipeline is not available after initialization attempt.".

(** Lines 128 and 129. *)
Definition log_exception (src tool_name e : string) : string :=
  "Error during text generation via " ++ src ++ " for " ++ tool_name
  ++ ": " ++ e.
Definition msg_exception (src e : string) : string :=
  "Error during text generation using " ++ src ++ ": " ++ e.

(** ** The runs of the [try] statement, case by case *)

(** The globals once a pipeline object is at hand: it was there already, or
    this call built it. *)
Inductive ready (w : World) (tool_name : string) (s : state)
  : Pipeline -> state -> Prop :=
| ready_present pl :
    hf_pipeline s = Some pl ->
    ready w tool_name s pl (push (Log INFO (log_attempt Secondary tool_name)) s)
| ready_built pl :
    hf_pipeline s = None ->
    let s1 := push (Log INFO log_init_start)
                (push EnterInit
                   (push (Log INFO (log_attempt Secondary tool_name)) s)) in
    pipeline w (length (events s1)) = Ok pl ->
    ready w tool_name s pl
      (set_GENERATION_METHOD "Hugging Face"
         (push (Log INFO log_init_ok)
            (set_hf_pipeline (Some pl) (push (Construct (Ok pl)) s1)))).

Inductive attempt_spec (w : World) (prompt tool_name : string) (s : state)
  : state -> frame -> Prop :=
| attempt_primary_ok content :
    ollama_available s = true ->
    let s1 := push (Log INFO (log_attempt Primary tool_name)) s in
    ollama_chat w (length (events s1)) prompt = Ok content ->
    attempt_spec w prompt tool_name s
      (push (Log INFO (log_received Primary tool_name))
         (push (Invoke Primary prompt (Ok content)) s1))
      {| result_text := content; source := source_label Primary;
         error_message := None |}
| attempt_primary_raise e :
    ollama_available s = true ->
    let s1 := push (Log INFO (log_attempt Primary tool_name)) s in
    ollama_chat w (length (events s1)) prompt = Raise e ->
    attempt_spec w prompt tool_name s
      (push (Log ERROR (log_exception (source_label Primary) tool_name e))
         (push (Invoke Primary prompt (Raise e)) s1))
      {| result_text := ""; source := "Error";
         error_message := Some (msg_exception (source_label Primary) e) |}
| attempt_no_backend :
    ollama_available s = false ->
    TRANSFORMERS_AVAILABLE w = false ->
    attempt_spec w prompt tool_name s
      (push (Log ERROR msg_no_backend) s)
      {| result_text := ""; source := "Error";
         error_message := Some msg_no_backend |}
| attempt_init_failed e :
    ollama_available s = false ->
    TRANSFORMERS_AVAILABLE w = true ->
    hf_pipeline s = None ->
    let s1 := push (Log INFO log_init_start)
                (push EnterInit
                   (push (Log INFO (log_attempt Secondary tool_name)) s)) in
    pipeline w (length (events s1)) = Raise e ->
    attempt_spec w prompt tool_name s
      (push (Log ERROR msg_init_failed)
         (set_GENERATION_METHOD "Error: HF Init Failed"
            (set_hf_pipeline None
               (push (Log ERROR (log_init_error e))
                  (push (Construct (Raise e)) s1)))))
      {| result_text := ""; source := "Error";
         error_message := Some msg_init_failed |}
| attempt_not_truthy pl s1 :
    ollama_available s = false ->
    TRANSFORMERS_AVAILABLE w = true ->
    ready w tool_name s pl s1 ->
    pl_truthy pl = false ->
    attempt_spec w prompt tool_name s
      (push (Log ERROR msg_not_available) s1)
      {| result_text := ""; source := "Error";
         error_message := Some msg_not_available |}
| attempt_secondary_ok pl s1 generated :
    ollama_available s = false ->
    TRANSFORMERS_AVAILABLE w = true ->
    ready w tool_name s pl s1 ->
    pl_truthy pl = true ->
    pl_call pl (length (events s1)) prompt = Ok generated ->
    attempt_spec w prompt tool_name s
      (push (Log INFO (log_received Secondary tool_name))
         (push (Invoke Secondary prompt (Ok generated)) s1))
      {| result_text :=
           if startswith generated prompt
           then lstrip (slice_from (String.length prompt) generated)
           else generated;
         source := source_label Secondary; error_message := None |}
| attempt_secondary_raise pl s1 e :
    ollama_available s = false ->
    TRANSFORMERS_AVAILABLE w = true ->
    ready w tool_name s pl s1 ->
    pl_truthy pl = true ->
    pl_call pl (length (events s1)) prompt = Raise e ->
    attempt_spec w prompt tool_name s
      (push (Log ERROR (log_exception (source_label Secondary) tool_name e))
         (push (Invoke Secondary prompt (Raise e)) s1))
      {| result_text := ""; source := "Error";
         error_message := Some (msg_exception (source_label Secondary) e) |}.

(** A computation that keeps the program within its reachable states,
    whether it returns or raises. *)
Definition preserves {A} (w : World) (m : M state A) : Prop :=
  forall s, reachable w s -> reachable w (snd (m s)).

(** A value [v[:1000]] accepts: a string or a list. *)
Definition sliceable (v : pyval) : bool :=
  match v with
  | PStr _ | PList _ => true
  | _ => false
  end.

(** ** The report of a call *)

(** The time stamp [generate_text] puts in its report when the [try]
    statement has left the globals [s]. *)
Definition timestamp_at (w : World) (s : state) : string :=
  strftime (datetime_now w (length (events s))).

(** The string [generate_text] returns, from the globals and the locals the
    [try] statement has left. *)
Definition report (w : World) (tool_name : string) (s : state) (f : frame)
  : string :=
  if negb (source f =? "Error")
  then branded_result tool_name (source f) (timestamp_at w s) (result_text f)
  else error_report (timestamp_at w s)
         (py_or (error_message f)
            "An unknown error occurred during text generation.")
         (fallback_info w s).

(** The fallback status as the specification words it: the error-tagged
    method label if there is one, and otherwise what the availability of the
    primary service, the presence of the transformers library and the
    presence of the pipeline say, looked at in that order. *)
Definition fallback_status (w : World) (s : state) : string :=
  if startswith (GENERATION_METHOD s) "Error"
  then " Fallback Status: " ++ GENERATION_METHOD s ++ "."
  else
    match ollama_available s, TRANSFORMERS_AVAILABLE w, hf_pipeline s with
    | true, _, _ => ""
    | false, false, _ =>
        " Fallback attempted but Transformers library is missing."
    | false, true, None =>
        " Fallback attempted but HF model (google/gemma-2b) failed to initialize."
    | false, true, Some _ => ""
    end.

(** Every character of [s] is white space. *)
Fixpoint all_isspace (s : string) : bool :=
  match s with
  | EmptyString => true
  | String c s' => isspace c && all_isspace s'
  end.

(** [s] begins with a white space character. *)
Definition leading_space (s : string) : bool :=
  match s with
  | EmptyString => false
  | String c _ => isspace c
  end.

(** ** Example worlds *)

Module Examples.

Definition noon : datetime :=
  {| year := 2025; month := 4; day := 9; hour := 12; minute := 0; second := 7 |}.

(** A pipeline that echoes the prompt before its continuation. *)
Definition echoing : Pipeline :=
  {| pl_truthy := true;
     pl_call := fun _ prompt => Ok (prompt ++ "  kopi lokal") |}.

(** A pipeline that answers without the prompt. *)
Definition terse : Pipeline :=
  {| pl_truthy := true; pl_call := fun _ _ => Ok "Kata kunci: kopi lokal" |}.

(** A pipeline whose call raises. *)
Definition crashing : Pipeline :=
  {| pl_truthy := true; pl_call := fun _ _ => Raise "CUDA out of memory" |}.

(** An object with a false truth value. *)
Definition falsy : Pipeline :=
  {| pl_truthy := false; pl_call := fun _ _ => Ok "" |}.

(** Ollama answers. *)
Definition ollama_up : World :=
  {| TRANSFORMERS_AVAILABLE := true;
     ollama_list := fun _ => Ok tt;
     ollama_chat := fun _ _ => Ok "1. kopi lokal";
     pipeline := fun _ => Ok echoing;
     datetime_now := fun _ => noon |}.

(** Ollama was there at start-up and refuses the chat. *)
Definition ollama_fails : World :=
  {| TRANSFORMERS_AVAILABLE := true;
     ollama_list := fun _ => Ok tt;
     ollama_chat := fun _ _ => Raise "connection refused";
     pipeline := fun _ => Ok echoing;
     datetime_now := fun _ => noon |}.

(** No Ollama; the transformers library with the pipeline [pl]. *)
Definition fallback (pl : Pipeline) : World :=
  {| TRANSFORMERS_AVAILABLE := true;
     ollama_list := fun _ => Raise "connection refused";
     ollama_chat := fun _ _ => Raise "connection refused";
     pipeline := fun _ => Ok pl;
     datetime_now := fun _ => noon |}.

(** No Ollama; the model cannot be loaded. *)
Definition no_model : World :=
  {| TRANSFORMERS_AVAILABLE := true;
     ollama_list := fun _ => Raise "connection refused";
     ollama_chat := fun _ _ => Raise "connection refused";
     pipeline := fun _ => Raise "model not found";
     datetime_now := fun _ => noon |}.

(** No Ollama and no transformers library. *)
Definition bare : World :=
  {| TRANSFORMERS_AVAILABLE := false;
     ollama_list := fun _ => Raise "connection refused";
     ollama_chat := fun _ _ => Raise "connection refused";
     pipeline := fun _ => Raise "name 'pipeline' is not defined";
     datetime_now := fun _ => noon |}.

(** The globals after the main block, in a world. *)
Definition booted (w : World) : state := snd (startup w initial_state).

(** Stand-ins for the two builtins the handlers are parameterized by:
    the examples only print strings and only slice integers. *)
Definition str_of (v : pyval) : string := "<" ++ type_name v ++ ">".
Definition not_subscriptable (v : pyval) : string :=
  "'" ++ type_name v ++ "' object is not subscriptable".

End Examples.

(** ** More observers *)

Definition is_probe (e : event) : bool :=
  match e with Probe _ => true | _ => false end.

(** [GENERATION_METHOD] carries an error tag. *)
Definition error_tagged (s : state) : bool :=
  startswith (GENERATION_METHOD s) "Error".

(** ** The routes and the prompts of the handlers *)

(** The f-string of line 173. *)
Definition keyword_hunter_prompt (topic : string) : string :=
  "Berikan daftar 15-20 kata kunci SEO long-tail yang relevan untuk topik: '"
  ++ topic
  ++ "'. Kategorikan kata kunci ini (misalnya, Informatif, Navigasi, Transaksional, Komersial). Fokus pada Bahasa Indonesia. Format sebagai daftar.".

(** The f-string of line 193, from [str(keywords)] and [str(content[:1000])]. *)
Definition meta_master_prompt (keywords head : string) : string :=
  "Buatlah Judul SEO (Meta Title) yang menarik (maksimal 60 karakter) dan Deskripsi Meta (Meta Description) yang efektif (maksimal 160 karakter) dalam Bahasa Indonesia untuk konten berikut. Jika ada, pertimbangkan kata kunci ini: '"
  ++ keywords ++ "'." ++ nl ++ nl ++ "Konten:" ++ nl ++ head ++ "...".

(** The f-string of line 210. *)
Definition article_forge_prompt (topic keywords : string) : string :=
  "Tulis draf artikel blog SEO-friendly sekitar 500-700 kata dalam Bahasa Indonesia tentang topik '"
  ++ topic
  ++ "'. Masukkan kata kunci berikut secara alami jika memungkinkan: '"
  ++ keywords
  ++ "'. Sertakan judul, pendahuluan, beberapa subjudul (H2), dan kesimpulan.".

(** The f-strings of lines 228 and 229. *)
Definition seo_analyzer_prompt (url : string) : string :=
  "Anda adalah asisten SEO. Berdasarkan URL '" ++ url
  ++ "' dan analisis awal (simulasi) ini:" ++ nl
  ++ ("Analisis SEO Awal untuk " ++ url ++ ":" ++ nl
      ++ "- Kecepatan Muat: (Perlu alat eksternal)" ++ nl
      ++ "- Responsif Seluler: (Perlu alat eksternal)" ++ nl
      ++ "- Tag Judul: (Ambil dari sumber halaman jika memungkinkan)" ++ nl
      ++ "- Deskripsi Meta: (Ambil dari sumber halaman jika memungkinkan)" ++ nl
      ++ "- Penggunaan HTTPS: Ya" ++ nl
      ++ "- Tautan Rusak: (Perlu pemeriksaan tautan)" ++ nl ++ nl
      ++ "(Analisis ini disimulasikan.)")
  ++ nl ++ nl
  ++ "Berikan ringkasan singkat tentang potensi masalah SEO on-page utama dan saran perbaikan umum dalam Bahasa Indonesia. Fokus pada aspek yang dapat dievaluasi dari data yang diberikan atau pengetahuan SEO umum.".

(** The f-strings of lines 248 to 253; the snippets are joined by a
    backslash followed by the letter n (line 252). *)
Definition news_radar_prompt (search_query : string) : string :=
  "Topik/Kata Kunci Pencarian Berita: '" ++ search_query ++ "'" ++ nl
  ++ "Berikut adalah beberapa rangkuman berita/informasi terkini yang relevan (simulasi):"
  ++ nl
  ++ String.concat "\n"
       [ "Tren pencarian untuk '" ++ search_query
         ++ "' meningkat di Google Trends minggu ini.";
         "Sebuah artikel di Kompasiana membahas dampak '" ++ search_query
         ++ "' pada UMKM lokal.";
         "Pemerintah mengumumkan regulasi baru yang mungkin mempengaruhi industri terkait '"
         ++ search_query ++ "'." ]
  ++ nl
  ++ "Berikan analisis singkat mengenai berita ini dalam Bahasa Indonesia. Apa implikasinya dari sudut pandang SEO atau konten? Apa tren utama yang terlihat?".

Section Routes.

Variable w : World.
Variable str_of_object : pyval -> string.
Variable subscript_error : pyval -> string.

(** The [@app.route] lines 165, 185, 202, 220 and 239. *)
Definition api_routes : list (string * (result pyval -> M state response)) :=
  [ ("/api/keyword-hunter", keyword_hunter w str_of_object);
    ("/api/meta-master", meta_master w str_of_object subscript_error);
    ("/api/article-forge", article_forge w str_of_object);
    ("/api/seo-analyzer", seo_analyzer w str_of_object);
    ("/api/news-radar", news_radar w str_of_object) ].

(** [str(data.get('keywords', ''))] *)
Definition keywords_of (d : list (string * pyval)) : string :=
  py_str str_of_object
    (match lookup "keywords" d with Some v => v | None => PStr "" end).

(** The prompt each endpoint builds from the document [d] when its required
    field is the string [x]. *)
Definition prompt_builders
  : list (list (string * pyval) -> string -> string) :=
  [ fun _ x => keyword_hunter_prompt x;
    fun d x => meta_master_prompt (keywords_of d) (slice_to 1000 x);
    fun d x => article_forge_prompt x (keywords_of d);
    fun _ x => seo_analyzer_prompt x;
    fun _ x => news_radar_prompt x ].

Definition prompt_table
  : list (endpoint * (list (string * pyval) -> string -> string)) :=
  combine (endpoints w str_of_object subscript_error) prompt_builders.

End Routes.

(** A value that is not a dict. *)
Definition not_dict (v : pyval) : bool :=
  match v with PDict _ => false | _ => true end.

(** ** Facts about Python strings *)

Section StringFacts.

Lemma prefix_nil (s : string) : String.prefix "" s = true.
Proof. destruct s; reflexivity. Qed.

Lemma prefix_cons (a b : ascii) (p s : string) :
  String.prefix (String a p) (String b s) = Ascii.eqb a b && String.prefix p s.
Proof.
  simpl. destruct (ascii_dec a b) as [->|N].
  - now rewrite Ascii.eqb_refl.
  - apply Ascii.eqb_neq in N. now rewrite N.
Qed.

Lemma prefix_spec (p s : string) :
  String.prefix p s = true <-> exists r, s = p ++ r.
Proof.
  revert s. induction p as [|a p IH]; intros s.
  - rewrite prefix_nil. split; [exists s; reflexivity | reflexivity].
  - destruct s as [|b s].
    + simpl. split; [discriminate | intros [r Hr]; discriminate].
    + rewrite prefix_cons, andb_true_iff, Ascii.eqb_eq, IH. split.
      * intros [-> [r ->]]. now exists r.
      * intros [r Hr]. simpl in Hr. injection Hr as -> ->. split; eauto.
Qed.

Lemma startswith_app (p r : string) : startswith (p ++ r) p = true.
Proof. apply prefix_spec. now exists r. Qed.

Lemma slice_from_app (p r : string) : slice_from (String.length p) (p ++ r) = r.
Proof. induction p; simpl; [now destruct r | assumption]. Qed.

Lemma append_assoc (a b c : string) : (a ++ b) ++ c = a ++ b ++ c.
Proof. induction a; simpl; congruence. Qed.

Lemma append_nil_r (a : string) : a ++ "" = a.
Proof. induction a; simpl; congruence. Qed.

Lemma str_in_cons (n : string) (c : ascii) (h : string) :
  str_in n (String c h) = String.prefix n (String c h) || str_in n h.
Proof. reflexivity. Qed.

Lemma str_in_spec (n h : string) :
  str_in n h = true <-> exists a b, h = a ++ n ++ b.
Proof.
  induction h as [|c h IH].
  - change (str_in n "") with (String.prefix n "" || false).
    rewrite orb_false_r, prefix_spec. split.
    + intros [r Hr]. now exists "", r.
    + intros [a [b Hab]]. destruct a; [now exists b | discriminate].
  - rewrite str_in_cons, orb_true_iff, prefix_spec, IH. split.
    + intros [[r Hr] | [a [b Hab]]].
      * now exists "", r.
      * exists (String c a), b. simpl. now rewrite Hab.
    + intros [[|d a] [b Hab]].
      * left. now exists b.
      * right. simpl in Hab. injection Hab as _ ->. now exists a, b.
Qed.

Lemma str_in_mid (a n b : string) : str_in n (a ++ n ++ b) = true.
Proof. apply str_in_spec. now exists a, b. Qed.

Lemma str_in_prefix (n b : string) : str_in n (n ++ b) = true.
Proof. apply (str_in_mid "" n b). Qed.

Lemma str_in_suffix (a n : string) : str_in n (a ++ n) = true.
Proof. rewrite <- (append_nil_r n) at 2. apply str_in_mid. Qed.

(** A needle cannot reach across a character it does not contain. *)
Lemma prefix_stops (c : ascii) (n a b : string) :
  has_char c n = false ->
  String.prefix n (a ++ String c b) = true -> String.prefix n a = true.
Proof.
  revert a. induction n as [|x n IH]; intros a Hc Hp.
  - apply prefix_nil.
  - simpl in Hc. apply orb_false_iff in Hc as [Hx Hn].
    destruct a as [|y a].
    + simpl append in Hp. rewrite prefix_cons, andb_true_iff in Hp.
      destruct Hp as [Hp _]. apply Ascii.eqb_eq in Hp. subst x.
      now rewrite Ascii.eqb_refl in Hx.
    + simpl append in Hp. rewrite prefix_cons, andb_true_iff in *.
      destruct Hp as [Hy Hp]. split; [assumption | now apply IH].
Qed.

Lemma str_in_split (c : ascii) (n a b : string) :
  has_char c n = false ->
  str_in n a = false -> str_in n b = false ->
  str_in n (a ++ String c b) = false.
Proof.
  intros Hc Ha Hb. induction a as [|y a IH].
  - simpl append. rewrite str_in_cons, Hb, orb_false_r.
    destruct (String.prefix n (String c b)) eqn:E; [|reflexivity].
    apply (prefix_stops c n "" b Hc) in E.
    destruct n; [destruct b; discriminate | discriminate].
  - rewrite str_in_cons in Ha. apply orb_false_iff in Ha as [Hp Ha].
    simpl append. rewrite str_in_cons, (IH Ha), orb_false_r.
    destruct (String.prefix n (String y (a ++ String c b))) eqn:E; [|reflexivity].
    apply (prefix_stops c n (String y a) b Hc) in E. congruence.
Qed.

Lemma prefix_length (n h : string) :
  String.prefix n h = true -> String.length n <= String.length h.
Proof.
  revert h. induction n as [|x n IH]; intros [|y h] H; simpl; try lia.
  - discriminate.
  - rewrite prefix_cons, andb_true_iff in H. destruct H as [_ H].
    apply IH in H. lia.
Qed.

Lemma str_in_short (n h : string) :
  String.length h < String.length n -> str_in n h = false.
Proof.
  induction h as [|c h IH]; intros L.
  - destruct n; [simpl in L; lia | reflexivity].
  - rewrite str_in_cons. simpl in L. rewrite IH by lia.
    destruct (String.prefix n (String c h)) eqn:E; [|reflexivity].
    apply prefix_length in E. simpl in E. lia.
Qed.

Lemma length_append (a b : string) :
  String.length (a ++ b) = String.length a + String.length b.
Proof. induction a; simpl; congruence. Qed.

End StringFacts.

(** [lstrip] removes a run of white space, and all of it. *)
Lemma lstrip_spec (s : string) :
  exists ws, s = ws ++ lstrip s
             /\ all_isspace ws = true
             /\ leading_space (lstrip s) = false.
Proof.
  induction s as [|c s (ws & E & A & L)].
  - now exists "".
  - simpl. destruct (isspace c) eqn:Hc.
    + exists (String c ws). simpl. rewrite Hc, A, <- E. auto.
    + exists "". simpl. auto.
Qed.

Lemma str_in_refl (n : string) : str_in n n = true.
Proof. rewrite <- (append_nil_r n) at 2. apply str_in_prefix. Qed.

Lemma str_in_app_r (n a b : string) :
  str_in n b = true -> str_in n (a ++ b) = true.
Proof.
  rewrite !str_in_spec. intros (x & y & ->). exists (a ++ x), y.
  now rewrite append_assoc.
Qed.

Lemma str_in_app_l (n a b : string) :
  str_in n a = true -> str_in n (a ++ b) = true.
Proof.
  rewrite !str_in_spec. intros (x & y & ->). exists x, (y ++ b).
  now rewrite !append_assoc.
Qed.

Lemma str_in_trans (a b c : string) :
  str_in a b = true -> str_in b c = true -> str_in a c = true.
Proof.
  rewrite !str_in_spec. intros (x & y & ->) (x' & y' & ->).
  exists (x' ++ x), (y ++ y'). now rewrite !append_assoc.
Qed.

(** Finds one of the pieces of a concatenation. *)
Ltac str_in_piece :=
  solve [ repeat first [ apply str_in_refl | apply str_in_prefix
                       | apply str_in_app_r ] ].

(** Finds a piece of a concatenation that contains the needle, by [L]. *)
Ltac str_in_sub L :=
  first [ exact L
        | apply str_in_app_l; exact L
        | apply str_in_app_r; str_in_sub L ].

(** ** Running the generation layer *)

Ltac unfold_monad :=
  unfold try_catch, bind, lift, local, assign_result_text, assign_source,
    assign_error_message, logging, emit, tick, gets, modify, of_result, ret,
    raise in *.

Ltac unfold_generate :=
  unfold generate_attempt, generate_try, generate_except,
    initialize_hf_pipeline, call_ollama_chat, call_pipeline, call_hf_pipeline.

Section Runs.

Variable w : World.

(** The [try] statement always completes, in one of the seven ways of
    [attempt_spec]. *)
Lemma attempt_sound (prompt tool_name : string) (s : state) :
  exists s' f,
    generate_attempt w prompt tool_name (s, initial_frame) = (Ok tt, (s', f))
    /\ attempt_spec w prompt tool_name s s' f.
Proof.
  unfold_generate. unfold_monad. cbn.
  destruct (ollama_available s) eqn:Hoa; cbn.
  - destruct (ollama_chat w (S (length (events s))) prompt) eqn:Hchat; cbn.
    + eexists _, _. split; [reflexivity|].
      now apply attempt_primary_ok.
    + eexists _, _. split; [reflexivity|].
      now apply attempt_primary_raise.
  - destruct (TRANSFORMERS_AVAILABLE w) eqn:HTA; cbn.
    + destruct (hf_pipeline s) as [pl|] eqn:Hhf; cbn; rewrite ?Hhf; cbn.
      * pose proof (ready_present w tool_name s Hhf) as Hr.
        destruct (pl_truthy pl) eqn:Htr; cbn; rewrite ?Hhf; cbn.
        -- destruct (pl_call pl (S (length (events s))) prompt) eqn:Hcall; cbn.
           ++ eexists _, _. split;
                [| now apply (attempt_secondary_ok prompt Hoa HTA Hr Htr Hcall)].
              now destruct (startswith a prompt).
           ++ eexists _, _. split; [reflexivity|].
              now apply (attempt_secondary_raise prompt Hoa HTA Hr Htr Hcall).
        -- eexists _, _. split; [reflexivity|].
           now apply (attempt_not_truthy prompt Hoa HTA Hr Htr).
      * destruct (pipeline w (S (S (S (length (events s)))))) as [pl|e] eqn:Hctor; cbn.
        -- pose proof (ready_built w tool_name s Hhf Hctor) as Hr.
           destruct (pl_truthy pl) eqn:Htr; cbn.
           ++ destruct (pl_call pl (S (S (S (S (S (length (events s))))))) prompt)
                eqn:Hcall; cbn.
              ** eexists _, _. split;
                   [| now apply (attempt_secondary_ok prompt Hoa HTA Hr Htr Hcall)].
                 now destruct (startswith a prompt).
              ** eexists _, _. split; [reflexivity|].
                 now apply (attempt_secondary_raise prompt Hoa HTA Hr Htr Hcall).
           ++ eexists _, _. split; [reflexivity|].
              now apply (attempt_not_truthy prompt Hoa HTA Hr Htr).
        -- eexists _, _. split; [reflexivity|].
           now apply attempt_init_failed.
    + eexists _, _. split; [reflexivity|].
      now apply attempt_no_backend.
Qed.

End Runs.

Section Reports.

Variable w : World.

Lemma generate_format_eq (tool_name : string) (s : state) (f : frame) :
  generate_format w tool_name (s, f) = (Ok (report w tool_name s f), (s, f)).
Proof.
  unfold generate_format, report, now_strftime, timestamp_at. unfold_monad. cbn.
  now destruct (source f =? "Error").
Qed.

(** A call of [generate_text] returns the report of the way its [try]
    statement went. *)
Lemma generate_text_run (prompt tool_name : string) (s : state) :
  exists s' f,
    attempt_spec w prompt tool_name s s' f
    /\ generate_text w prompt tool_name s = (Ok (report w tool_name s' f), s')
    /\ generate_outcome w prompt tool_name s = f
    /\ generate_state w prompt tool_name s = s'.
Proof.
  destruct (attempt_sound w prompt tool_name s) as (s' & f & Hrun & Hspec).
  exists s', f. unfold generate_text, generate_frame, generate_outcome,
    generate_state, bind. rewrite Hrun, generate_format_eq. auto.
Qed.

Lemma events_since_app (new : list event) (s s' : state) :
  events s' = (new ++ events s)%list -> events_since s s' = new.
Proof.
  intros E. unfold events_since. rewrite E, length_app, Nat.add_sub.
  rewrite firstn_app, Nat.sub_diag, firstn_all. cbn. apply app_nil_r.
Qed.

Lemma ready_events (tool_name : string) (s : state) (pl : Pipeline) (s1 : state) :
  ready w tool_name s pl s1 ->
  exists new, events s1 = (new ++ events s)%list
              /\ filter is_backend_call new = []
              /\ filter is_error_log new = []
              /\ hf_pipeline s1 = Some pl
              /\ ollama_available s1 = ollama_available s.
Proof.
  intros [pl' H | pl' H s0 Hc].
  - now exists [Log INFO (log_attempt Secondary tool_name)].
  - now exists [Log INFO log_init_ok; Construct (Ok pl'); Log INFO log_init_start;
                EnterInit; Log INFO (log_attempt Secondary tool_name)].
Qed.

End Reports.

(** ** Properties of the generation layer *)

Ltac new_of l base :=
  lazymatch l with
  | base => constr:(@nil event)
  | ?e :: ?l' => let r := new_of l' base in constr:(e :: r)
  end.

(** Computes [events_since s s'] when [s'] is [s] with events pushed. *)
Ltac simpl_events_since :=
  repeat match goal with
  | |- context [events_since ?s ?s'] =>
      let l := eval cbn in (events s') in
      let b := eval cbn in (events s) in
      let n := new_of l b in
      rewrite (@events_since_app n s s' eq_refl)
  end.

(** Replaces a call of [generate_text] from [s] by the case of
    [attempt_spec] it follows. *)
Ltac run_generate w prompt tool_name s :=
  let s' := fresh "s'" in
  let f := fresh "f" in
  let Hspec := fresh "Hspec" in
  let Hrun := fresh "Hrun" in
  let Hout := fresh "Hout" in
  let Hst := fresh "Hst" in
  destruct (generate_text_run w prompt tool_name s)
    as (s' & f & Hspec & Hrun & Hout & Hst);
  unfold returned, after in *;
  rewrite ?Hrun, ?Hout, ?Hst in *; cbn [fst snd] in *.

(** C1. When [ollama_available] is true, a call of [generate_text] invokes
    the Ollama backend once, with the prompt, and nothing else: it does not
    enter [initialize_hf_pipeline], constructs no pipeline, invokes no
    pipeline, and leaves [hf_pipeline] and [GENERATION_METHOD] as they
    were. *)
Theorem C1_primary_only (w : World) (prompt tool_name : string) (s : state) :
  ollama_available s = true ->
  let s' := after w prompt tool_name s in
  let new := events_since s s' in
  (exists reply, filter is_backend_call new = [Invoke Primary prompt reply])
  /\ count (is_invoke Secondary) new = 0
  /\ count is_enter_init new = 0
  /\ count is_construct new = 0
  /\ hf_pipeline s' = hf_pipeline s
  /\ GENERATION_METHOD s' = GENERATION_METHOD s
  /\ ollama_available s' = true.
Proof.
  intros Hoa. run_generate w prompt tool_name s.
  destruct Hspec; try congruence; subst s1; simpl_events_since; cbn;
    repeat split; eauto.
Qed.

Ltac split_ready :=
  repeat match goal with
  | H : ready _ _ _ _ _ |- _ => destruct H
  end.

Ltac use_ready :=
  match goal with
  | Hr : ready _ _ _ _ _ |- _ =>
      let Hpl := fresh "Hpl" in
      destruct (ready_events Hr) as (? & ? & ? & ? & Hpl & ?)
  end.

Ltac find_event H :=
  cbn in H;
  repeat (destruct H as [H | H]; try discriminate H);
  try contradiction.

(** C2. When the call invoked the Hugging Face pipeline and the text it
    generated is the prompt followed by a continuation, [result_text] is the
    continuation without its leading white space: the prompt is removed once,
    at the front, and the source is the Hugging Face label.  When the
    generated text does not start with the prompt, [result_text] is that
    text, unchanged. *)
Theorem C2_echo_stripping (w : World) (prompt tool_name : string) (s : state) :
  let o := generate_outcome w prompt tool_name s in
  let new := events_since s (after w prompt tool_name s) in
  (forall continuation,
     In (Invoke Secondary prompt (Ok (prompt ++ continuation))) new ->
     result_text o = lstrip continuation
     /\ (exists ws, continuation = ws ++ result_text o
                    /\ all_isspace ws = true
                    /\ leading_space (result_text o) = false)
     /\ source o = source_label Secondary)
  /\ (forall generated,
        In (Invoke Secondary prompt (Ok generated)) new ->
        startswith generated prompt = false ->
        result_text o = generated /\ source o = source_label Secondary).
Proof.
  run_generate w prompt tool_name s.
  assert (Hstrip : forall c,
             (if startswith (prompt ++ c) prompt
              then lstrip (slice_from (String.length prompt) (prompt ++ c))
              else prompt ++ c) = lstrip c)
    by (intros c; now rewrite startswith_app, slice_from_app).
  split.
  - intros c Hin.
    destruct Hspec; split_ready; try subst s1; try subst s0;
      revert Hin; simpl_events_since; intros Hin; find_event Hin;
      injection Hin as ->; cbn [result_text source]; rewrite Hstrip;
      (split; [reflexivity | split; [apply lstrip_spec | reflexivity]]).
  - intros g Hin Hsw.
    destruct Hspec; split_ready; try subst s1; try subst s0;
      revert Hin; simpl_events_since; intros Hin; find_event Hin;
      injection Hin as ->; cbn [result_text source]; rewrite Hsw; auto.
Qed.

Lemma error_messages_distinct :
  msg_no_backend <> msg_init_failed
  /\ msg_no_backend <> msg_not_available
  /\ msg_init_failed <> msg_not_available.
Proof. repeat split; discriminate. Qed.

Lemma msg_no_backend_names_library :
  str_in "the Transformers library is not installed" msg_no_backend = true.
Proof. reflexivity. Qed.

(** C3, as the program has it.  With [ollama_available] false, a call that
    invokes no pipeline ends with the source [Error] and one of three
    different messages: the transformers library is missing; the
    initialization made by this call failed; no usable pipeline is there
    and no initialization failed.  In the first case the report contains the
    words saying that the library is not installed. *)
Theorem C3_error_causes (w : World) (prompt tool_name : string) (s : state) :
  ollama_available s = false ->
  let o := generate_outcome w prompt tool_name s in
  let s' := after w prompt tool_name s in
  let new := events_since s s' in
  (TRANSFORMERS_AVAILABLE w = false ->
     source o = "Error"
     /\ error_message o = Some msg_no_backend
     /\ exists out, returned w prompt tool_name s = Ok out
          /\ str_in "the Transformers library is not installed" out = true
          /\ str_in error_marker out = true)
  /\ (forall e, In (Construct (Raise e)) new ->
        source o = "Error" /\ error_message o = Some msg_init_failed)
  /\ (TRANSFORMERS_AVAILABLE w = true ->
      pipeline_truthy (hf_pipeline s') = false ->
      (forall e, ~ In (Construct (Raise e)) new) ->
        source o = "Error" /\ error_message o = Some msg_not_available)
  /\ (count is_backend_call new = 0 ->
      source o = "Error"
      /\ (error_message o = Some msg_no_backend
          \/ error_message o = Some msg_init_failed
          \/ error_message o = Some msg_not_available))
  /\ (msg_no_backend <> msg_init_failed
      /\ msg_no_backend <> msg_not_available
      /\ msg_init_failed <> msg_not_available).
Proof.
  intros Hoa. run_generate w prompt tool_name s.
  split; [|split; [|split; [|split]]].
  - intros HTA. destruct Hspec; try congruence.
    split; [reflexivity | split; [reflexivity|]].
    eexists. split; [reflexivity|].
    unfold report, error_report. cbn [source negb String.eqb error_message py_or].
    split.
    + change (truthy msg_no_backend) with true. cbv iota.
      str_in_sub msg_no_backend_names_library.
    + apply str_in_app_l. reflexivity.
  - intros e Hin.
    destruct Hspec; split_ready; try subst s1; try subst s0;
      revert Hin; simpl_events_since; intros Hin; find_event Hin; auto.
  - intros HTA Hfalsy Hno.
    destruct Hspec; try congruence; auto.
    + exfalso. subst s1. revert Hno. simpl_events_since. intros Hno.
      apply (Hno e). cbn. auto.
    + exfalso. use_ready. cbn in Hfalsy. rewrite Hpl in Hfalsy.
      cbn in Hfalsy. congruence.
    + exfalso. use_ready. cbn in Hfalsy. rewrite Hpl in Hfalsy.
      cbn in Hfalsy. congruence.
  - destruct Hspec; split_ready; try subst s1; try subst s0;
      simpl_events_since; cbn; try discriminate; auto.
  - apply error_messages_distinct.
Qed.

(** *** The pipeline handle *)

Section Handle.

Variable w : World.

Lemma initialize_present (s : state) (pl : Pipeline) :
  TRANSFORMERS_AVAILABLE w = true ->
  hf_pipeline s = Some pl ->
  initialize_hf_pipeline w s = (Ok true, push EnterInit s).
Proof.
  intros HTA Hpl. unfold initialize_hf_pipeline. unfold_monad. cbn.
  rewrite HTA. cbn. now rewrite Hpl.
Qed.

Lemma initialize_missing (s : state) :
  TRANSFORMERS_AVAILABLE w = false ->
  initialize_hf_pipeline w s =
  (Ok false,
   set_GENERATION_METHOD "Error: Transformers Missing"
     (push (Log ERROR
        "Transformers library not installed. Cannot initialize Hugging Face pipeline.")
        (push EnterInit s))).
Proof.
  intros HTA. unfold initialize_hf_pipeline. unfold_monad. cbn.
  now rewrite HTA.
Qed.

Lemma initialize_absent (s : state) :
  TRANSFORMERS_AVAILABLE w = true ->
  hf_pipeline s = None ->
  let s1 := push (Log INFO log_init_start) (push EnterInit s) in
  initialize_hf_pipeline w s =
  match pipeline w (length (events s1)) with
  | Ok pl =>
      (Ok true,
       set_GENERATION_METHOD "Hugging Face"
         (push (Log INFO log_init_ok)
            (set_hf_pipeline (Some pl) (push (Construct (Ok pl)) s1))))
  | Raise e =>
      (Ok false,
       set_GENERATION_METHOD "Error: HF Init Failed"
         (set_hf_pipeline None
            (push (Log ERROR (log_init_error e))
               (push (Construct (Raise e)) s1))))
  end.
Proof.
  intros HTA Hpl. unfold initialize_hf_pipeline, call_pipeline. unfold_monad.
  cbn. rewrite HTA. cbn. rewrite Hpl. cbn.
  now destruct (pipeline w (S (S (length (events s))))).
Qed.

(** Without the transformers library nothing ever sets the handle. *)
Lemma startup_keeps_handle (s : state) :
  TRANSFORMERS_AVAILABLE w = false ->
  hf_pipeline (snd (startup w s)) = hf_pipeline s.
Proof.
  intros HTA. unfold startup, initialize_hf_pipeline. unfold_monad. cbn.
  destruct (ollama_list w (S (length (events s)))); cbn; [reflexivity|].
  now rewrite HTA.
Qed.

Lemma generate_keeps_handle (prompt tool_name : string) (s : state) :
  TRANSFORMERS_AVAILABLE w = false ->
  hf_pipeline (snd (generate_text w prompt tool_name s)) = hf_pipeline s.
Proof.
  intros HTA. run_generate w prompt tool_name s.
  destruct Hspec; congruence || reflexivity.
Qed.

(** A call of [generate_text] never drops a handle. *)
Lemma generate_keeps_present (prompt tool_name : string) (s : state)
      (pl : Pipeline) :
  hf_pipeline s = Some pl ->
  hf_pipeline (snd (generate_text w prompt tool_name s)) = Some pl.
Proof.
  intros Hpl. run_generate w prompt tool_name s.
  destruct Hspec; split_ready; try subst s1; try subst s0; cbn; congruence.
Qed.

(** The handle is present only where the library that builds it is. *)
Lemma reachable_handle (s : state) :
  reachable w s ->
  TRANSFORMERS_AVAILABLE w = false -> hf_pipeline s = None.
Proof.
  intros R HTA. induction R as [|s R IH|s R IH|s p t R IH|s lvl msg R IH].
  - reflexivity.
  - now rewrite startup_keeps_handle.
  - now rewrite initialize_missing.
  - now rewrite generate_keeps_handle.
  - exact IH.
Qed.

End Handle.

(** C4. In a state the program can reach where [hf_pipeline] is not [None],
    [initialize_hf_pipeline] returns true at once: it constructs nothing,
    logs nothing and changes no global.  And when a call made without a
    handle returns true, the call that follows it returns true and constructs
    nothing: the two calls have constructed the pipeline once. *)
Theorem C4_initialize_idempotent (w : World) (s : state) :
  reachable w s ->
  (hf_pipeline s <> None ->
     exists s', initialize_hf_pipeline w s = (Ok true, s')
       /\ events_since s s' = [EnterInit]
       /\ count is_construct (events_since s s') = 0
       /\ hf_pipeline s' = hf_pipeline s
       /\ GENERATION_METHOD s' = GENERATION_METHOD s
       /\ ollama_available s' = ollama_available s)
  /\ (forall s1,
        hf_pipeline s = None ->
        initialize_hf_pipeline w s = (Ok true, s1) ->
        exists s2, initialize_hf_pipeline w s1 = (Ok true, s2)
          /\ hf_pipeline s1 <> None
          /\ hf_pipeline s2 = hf_pipeline s1
          /\ count is_construct (events_since s s1) = 1
          /\ count is_construct (events_since s1 s2) = 0
          /\ count is_construct (events_since s s2) = 1).
Proof.
  intros R. split.
  - intros Hpl. destruct (hf_pipeline s) as [pl|] eqn:E; [|congruence].
    destruct (TRANSFORMERS_AVAILABLE w) eqn:HTA.
    + rewrite (initialize_present w s HTA E). eexists. split; [reflexivity|].
      simpl_events_since. cbn. rewrite E. auto.
    + rewrite (reachable_handle R HTA) in E. discriminate.
  - intros s1 Hnone Hfirst.
    destruct (TRANSFORMERS_AVAILABLE w) eqn:HTA.
    + rewrite (initialize_absent w s HTA Hnone) in Hfirst. cbn in Hfirst.
      destruct (pipeline w (S (S (length (events s))))) as [pl|e];
        [|discriminate].
      injection Hfirst as <-.
      erewrite initialize_present; [|exact HTA|cbn; reflexivity].
      eexists. split; [reflexivity|]. simpl_events_since. cbn.
      repeat split; discriminate.
    + rewrite (initialize_missing w s HTA) in Hfirst. discriminate.
Qed.

(** *** Exceptions of the backends *)

Lemma msg_exception_has_text (src e : string) :
  str_in e (msg_exception src e) = true.
Proof. unfold msg_exception. str_in_piece. Qed.

Lemma msg_exception_has_source (src e : string) :
  str_in src (msg_exception src e) = true.
Proof. unfold msg_exception. str_in_piece. Qed.

Lemma log_exception_has_source (src tool_name e : string) :
  str_in src (log_exception src tool_name e) = true.
Proof. unfold log_exception. str_in_piece. Qed.

Lemma error_report_has_message (timestamp msg info : string) :
  str_in msg (error_report timestamp msg info) = true.
Proof. unfold error_report. str_in_piece. Qed.

Lemma error_report_has_marker (timestamp msg info : string) :
  startswith (error_report timestamp msg info) error_marker = true.
Proof. apply prefix_spec. eexists. reflexivity. Qed.

(** C5. [generate_text] always returns a string: it raises nothing.  A call
    invokes at most one backend.  When the backend it invoked raised [e], the
    call ends with the source [Error]; the report is the error report whose
    message has the text of [e] and the label of the source that was tried;
    that backend is the only one invoked (after a failure of Ollama the
    function does not enter [initialize_hf_pipeline] and constructs
    nothing); and the call logs one error line, with that label in it. *)
Theorem C5_exceptions_caught (w : World) (prompt tool_name : string) (s : state) :
  let o := generate_outcome w prompt tool_name s in
  let s' := after w prompt tool_name s in
  let new := events_since s s' in
  (exists out, returned w prompt tool_name s = Ok out)
  /\ count is_backend_call new <= 1
  /\ (forall b e,
        In (Invoke b prompt (Raise e)) new ->
        source o = "Error"
        /\ (exists out,
              returned w prompt tool_name s = Ok out
              /\ out = error_report (timestamp_at w s')
                         (msg_exception (source_label b) e) (fallback_info w s')
              /\ str_in e out = true
              /\ str_in (source_label b) out = true
              /\ startswith out error_marker = true)
        /\ filter is_backend_call new = [Invoke b prompt (Raise e)]
        /\ filter is_error_log new
           = [Log ERROR (log_exception (source_label b) tool_name e)]
        /\ str_in (source_label b)
             (log_exception (source_label b) tool_name e) = true
        /\ (b = Primary ->
            count is_enter_init new = 0 /\ count is_construct new = 0)).
Proof.
  run_generate w prompt tool_name s.
  split; [eauto | split].
  - destruct Hspec; split_ready; try subst s1; try subst s0;
      simpl_events_since; cbn; lia.
  - intros b e Hin.
    assert (Hrep : forall src ts info,
               str_in e (error_report ts (msg_exception src e) info) = true
               /\ str_in src (error_report ts (msg_exception src e) info) = true).
    { intros src ts info. split.
      - exact (str_in_trans _ _ _ (msg_exception_has_text src e)
                 (error_report_has_message ts _ info)).
      - exact (str_in_trans _ _ _ (msg_exception_has_source src e)
                 (error_report_has_message ts _ info)). }
    destruct Hspec; split_ready; try subst s1; try subst s0;
      revert Hin; simpl_events_since; intros Hin; find_event Hin;
      injection Hin as <- <-;
      (split; [reflexivity|]);
      (split; [eexists; split; [reflexivity|];
               split; [reflexivity|];
               split; [apply Hrep|];
               split; [apply Hrep | apply error_report_has_marker] |]);
      cbn; repeat split; try discriminate;
      apply log_exception_has_source.
Qed.

(** *** The two reports *)

Lemma branded_result_closing (tool_name src timestamp text : string) :
  exists body, branded_result tool_name src timestamp text = body ++ closing_marker.
Proof.
  unfold branded_result, closing_marker.
  exists ("--- Wolfgank AI [" ++ tool_name ++ "] Result (" ++ src ++ " @ "
          ++ timestamp ++ ") ---" ++ nl ++ nl ++ text ++ nl ++ nl).
  now rewrite !append_assoc.
Qed.

Lemma error_report_closing (timestamp msg info : string) :
  exists body, error_report timestamp msg info = body ++ closing_marker.
Proof.
  unfold error_report, closing_marker.
  exists ("--- Wolfgank AI Error (" ++ timestamp ++ ") ---" ++ nl ++ nl
          ++ msg ++ info ++ nl ++ "Please check logs and model availability."
          ++ nl ++ nl).
  now rewrite !append_assoc.
Qed.

(** What the [try] statement leaves in [source] and [error_message]. *)
Lemma attempt_source (w : World) (prompt tool_name : string) (s s' : state)
      (f : frame) :
  attempt_spec w prompt tool_name s s' f ->
  (source f = "Error"
   /\ exists msg, error_message f = Some msg /\ truthy msg = true)
  \/ (source f <> "Error"
      /\ (source f = source_label Primary \/ source f = source_label Secondary)).
Proof.
  intros []; cbn [source error_message];
    first [ left; split; [reflexivity | eexists; split; reflexivity]
          | right; split; [discriminate | auto] ].
Qed.

(** C6. When the call ends with a source other than [Error], the string it
    returns is the result template filled with the tool name, the source, the
    time stamp and the result text, and closed by the end marker.  The source
    is then the label of one of the two backends. *)
Theorem C6_result_banner (w : World) (prompt tool_name : string) (s : state) :
  let o := generate_outcome w prompt tool_name s in
  let s' := after w prompt tool_name s in
  source o <> "Error" ->
  exists out,
    returned w prompt tool_name s = Ok out
    /\ out = "--- Wolfgank AI [" ++ tool_name ++ "] Result (" ++ source o
             ++ " @ " ++ timestamp_at w s' ++ ") ---" ++ nl ++ nl
             ++ result_text o ++ nl ++ nl ++ "--- End of Report ---"
    /\ str_in tool_name out = true
    /\ str_in (source o) out = true
    /\ str_in (timestamp_at w s') out = true
    /\ str_in (result_text o) out = true
    /\ (exists body, out = body ++ closing_marker)
    /\ (source o = source_label Primary \/ source o = source_label Secondary).
Proof.
  run_generate w prompt tool_name s. intros Hsrc.
  exists (branded_result tool_name (source f) (timestamp_at w s') (result_text f)).
  split.
  { unfold report. apply String.eqb_neq in Hsrc. now rewrite Hsrc. }
  split; [reflexivity|].
  unfold branded_result.
  repeat (split; [str_in_piece|]).
  split; [apply branded_result_closing|].
  destruct (attempt_source Hspec) as [[E _] | [_ L]]; [congruence | exact L].
Qed.

(** The fallback text of the program is the one the specification words. *)
Lemma fallback_info_status (w : World) (s : state) :
  fallback_info w s = fallback_status w s.
Proof.
  unfold fallback_info, fallback_status, HF_MODEL_FALLBACK.
  destruct (startswith (GENERATION_METHOD s) "Error"); [reflexivity|].
  now destruct (ollama_available s), (TRANSFORMERS_AVAILABLE w), (hf_pipeline s).
Qed.

(** C7. When the call ends with the source [Error], the string it returns is
    the error template, not the result template: the error marker, the time
    stamp, the error message of the call, and the fallback status, which is
    the error-tagged [GENERATION_METHOD] if there is one and is otherwise
    read from [ollama_available], then [TRANSFORMERS_AVAILABLE], then
    [hf_pipeline]. *)
Theorem C7_error_banner (w : World) (prompt tool_name : string) (s : state) :
  let o := generate_outcome w prompt tool_name s in
  let s' := after w prompt tool_name s in
  source o = "Error" ->
  exists out msg,
    returned w prompt tool_name s = Ok out
    /\ error_message o = Some msg
    /\ out = "--- Wolfgank AI Error (" ++ timestamp_at w s' ++ ") ---" ++ nl ++ nl
             ++ msg ++ fallback_status w s' ++ nl
             ++ "Please check logs and model availability." ++ nl ++ nl
             ++ "--- End of Report ---"
    /\ str_in (timestamp_at w s') out = true
    /\ str_in msg out = true
    /\ str_in (fallback_status w s') out = true
    /\ startswith out error_marker = true
    /\ startswith out "--- Wolfgank AI [" = false
    /\ (exists body, out = body ++ closing_marker).
Proof.
  run_generate w prompt tool_name s. intros Hsrc.
  destruct (attempt_source Hspec) as [[_ (msg & Hmsg & Htr)] | [N _]];
    [|congruence].
  exists (error_report (timestamp_at w s') msg (fallback_status w s')), msg.
  split.
  { unfold report. rewrite Hsrc, Hmsg, fallback_info_status. cbn.
    now rewrite Htr. }
  split; [assumption|]. split; [reflexivity|].
  unfold error_report.
  repeat (split; [str_in_piece|]).
  split; [apply (error_report_has_marker (timestamp_at w s') msg _)|].
  split; [reflexivity | apply error_report_closing].
Qed.

(** *** The error marker *)

Lemma strftime_length (d : datetime) : String.length (strftime d) = 19.
Proof. reflexivity. Qed.

Lemma startswith_str_in (s p : string) :
  startswith s p = true -> str_in p s = true.
Proof.
  unfold startswith. rewrite prefix_spec. intros [r ->]. apply str_in_prefix.
Qed.

(** The result template brings no error marker of its own: the marker is in
    a result report only if the tool name or the result text has it. *)
Lemma branded_result_marker_free (tool_name : string) (b : backend)
      (d : datetime) (text : string) :
  str_in error_marker tool_name = false ->
  str_in error_marker text = false ->
  str_in error_marker
    (branded_result tool_name (source_label b) (strftime d) text) = false.
Proof.
  intros Htool Htext.
  assert (E : branded_result tool_name (source_label b) (strftime d) text
              = "--- Wolfgank AI "
                ++ String "["
                     (tool_name
                      ++ String "]"
                           ((" Result (" ++ source_label b ++ " ")
                            ++ String "@"
                                 ((" " ++ strftime d)
                                  ++ String ")"
                                       (" ---"
                                        ++ String (ascii_of_nat 10)
                                             (""
                                              ++ String (ascii_of_nat 10)
                                                   (text
                                                    ++ String (ascii_of_nat 10)
                                                         (""
                                                          ++ String (ascii_of_nat 10)
                                                               closing_marker)))))))).
  { unfold branded_result. rewrite !append_assoc. reflexivity. }
  rewrite E.
  repeat (apply str_in_split; [reflexivity | |]);
    try reflexivity; try assumption.
  - now destruct b.
  - apply str_in_short. cbn [String.length append]. rewrite strftime_length.
    cbn. lia.
Qed.

(** C10, as the program has it.  Every string [generate_text] returns begins
    with [--- Wolfgank AI] and ends with the end marker, and it begins with
    the error marker exactly when the call ended with the source [Error].
    When neither the tool name nor the result text contains the error
    marker, the marker occurs in the returned string exactly when the source
    is [Error]. *)
Theorem C10_banner_markers (w : World) (prompt tool_name : string) (s : state) :
  let o := generate_outcome w prompt tool_name s in
  exists out,
    returned w prompt tool_name s = Ok out
    /\ startswith out "--- Wolfgank AI" = true
    /\ (exists body, out = body ++ closing_marker)
    /\ (startswith out error_marker = true <-> source o = "Error")
    /\ (str_in error_marker tool_name = false ->
        str_in error_marker (result_text o) = false ->
        (str_in error_marker out = true <-> source o = "Error")).
Proof.
  run_generate w prompt tool_name s.
  eexists. split; [reflexivity|]. unfold report.
  destruct (attempt_source Hspec) as [[E (msg & Hmsg & Htr)] | [N L]].
  - rewrite E. change (negb ("Error" =? "Error")) with false. cbv iota.
    split; [apply prefix_spec; eexists; reflexivity|].
    split; [apply error_report_closing|].
    pose proof (error_report_has_marker (timestamp_at w s')
                  (py_or (error_message f)
                     "An unknown error occurred during text generation.")
                  (fallback_info w s')) as Hmark.
    split; [tauto|]. intros _ _. split; [auto|]. intros _.
    now apply startswith_str_in.
  - pose proof N as Nb. apply String.eqb_neq in Nb. rewrite Nb. cbn [negb].
    split; [apply prefix_spec; eexists; reflexivity|].
    split; [apply branded_result_closing|].
    split.
    + split; [discriminate | congruence].
    + intros Htool Htext. split; [|congruence]. intros Hin. exfalso.
      assert (Hfree : str_in error_marker
                (branded_result tool_name (source f) (timestamp_at w s')
                   (result_text f)) = false).
      { destruct L as [-> | ->]; now apply branded_result_marker_free. }
      congruence.
Qed.

(** C10 fails as it is stated: with a tool name that contains the error
    marker, a call that succeeds (source Ollama, a result text without the
    marker) returns a string whose first line contains the marker. *)
Lemma C10_counterexample :
  str_in error_marker
    (result_text (generate_outcome Examples.ollama_up "kopi"
                    "--- Wolfgank AI Error" (Examples.booted Examples.ollama_up)))
  = false
  /\ source (generate_outcome Examples.ollama_up "kopi"
               "--- Wolfgank AI Error" (Examples.booted Examples.ollama_up))
     <> "Error"
  /\ returned Examples.ollama_up "kopi" "--- Wolfgank AI Error"
       (Examples.booted Examples.ollama_up)
     = Ok ("--- Wolfgank AI [--- Wolfgank AI Error] Result (Ollama (gemma3:1b) @ 2025-04-09 12:00:07) ---"
           ++ nl ++ nl ++ "1. kopi lokal" ++ nl ++ nl ++ "--- End of Report ---")
  /\ str_in error_marker
       "--- Wolfgank AI [--- Wolfgank AI Error] Result (Ollama (gemma3:1b) @ 2025-04-09 12:00:07) ---"
     = true.
Proof.
  split; [reflexivity|]. split; [discriminate|]. split; reflexivity.
Qed.

(** ** Properties of the request handlers *)

Arguments generate_text : simpl never.

Section HandlerFacts.

Variable w : World.
Variable str_of_object : pyval -> string.
Variable subscript_error : pyval -> string.

(** Every call of [generate_text] leaves a trace: it logs at least a line. *)
Lemma generate_text_logs (prompt tool_name : string) (s : state) :
  events_since s (after w prompt tool_name s) <> [].
Proof.
  run_generate w prompt tool_name s.
  destruct Hspec; split_ready; try subst s1; try subst s0;
    simpl_events_since; discriminate.
Qed.

Lemma generate_text_changes (prompt tool_name : string) (s : state) :
  snd (generate_text w prompt tool_name s) <> s.
Proof.
  intros E. apply (generate_text_logs prompt tool_name s).
  unfold after. rewrite E. unfold events_since.
  now rewrite Nat.sub_diag.
Qed.

(** The response to a request whose required field is missing or falsy. *)
Lemma handler_rejects (ep : endpoint) (d : list (string * pyval)) (s : state) :
  In ep (endpoints w str_of_object subscript_error) ->
  py_truthy (match lookup (ep_field ep) d with Some v => v | None => PNone end)
  = false ->
  ep_handler ep (Ok (PDict d)) s = (Ok (jsonify "error" (ep_missing ep) 400), s).
Proof.
  intros Hin Hfalse. cbn in Hin.
  repeat (destruct Hin as [<- | Hin]); [..|contradiction];
    cbn in Hfalse;
    unfold keyword_hunter, meta_master, article_forge, seo_analyzer, news_radar;
    unfold_monad; cbn; now rewrite Hfalse.
Qed.

(** *** Handlers stay within the reachable states *)

Lemma preserves_ret {A} (a : A) : preserves w (ret a).
Proof. intros s R. exact R. Qed.

Lemma preserves_raise {A} (e : string) : preserves w (raise (A := A) e).
Proof. intros s R. exact R. Qed.

Lemma preserves_of_result {A} (r : result A) : preserves w (of_result r).
Proof. intros s R. exact R. Qed.

Lemma preserves_logging (lvl : level) (msg : string) :
  preserves w (logging lvl msg).
Proof. intros s R. now apply reach_log. Qed.

Lemma preserves_generate_text (prompt tool_name : string) :
  preserves w (generate_text w prompt tool_name).
Proof. intros s R. now apply reach_generate. Qed.

Lemma preserves_bind {A B} (m : M state A) (k : A -> M state B) :
  preserves w m -> (forall a, preserves w (k a)) -> preserves w (bind m k).
Proof.
  intros Hm Hk s R. unfold bind. specialize (Hm s R).
  destruct (m s) as [[a|e] s1]; cbn in *; [now apply Hk | exact Hm].
Qed.

Lemma preserves_try_catch {A} (m : M state A) (h : string -> M state A) :
  preserves w m -> (forall e, preserves w (h e)) -> preserves w (try_catch m h).
Proof.
  intros Hm Hh s R. unfold try_catch. specialize (Hm s R).
  destruct (m s) as [[a|e] s1]; cbn in *; [exact Hm | now apply Hh].
Qed.

Lemma preserves_dict_get (data : pyval) (key : string) (default : pyval) :
  preserves w (dict_get data key default).
Proof. intros st R. now destruct data. Qed.

Lemma preserves_slice_1000 (v : pyval) :
  preserves w (slice_1000 subscript_error v).
Proof. intros st R. now destruct v. Qed.

Ltac preserves_step :=
  first [ apply preserves_ret | apply preserves_raise
        | apply preserves_of_result | apply preserves_logging
        | apply preserves_generate_text | apply preserves_dict_get
        | apply preserves_slice_1000
        | apply preserves_try_catch | apply preserves_bind
        | match goal with |- preserves _ (if ?b then _ else _) => destruct b end
        | intro ].

(** Whatever the request, a handler leaves the program in a state it can
    reach by calls of [generate_text] and log lines. *)
Lemma handler_reachable (ep : endpoint) (request : result pyval) (s : state) :
  In ep (endpoints w str_of_object subscript_error) ->
  reachable w s ->
  reachable w (snd (ep_handler ep request s)).
Proof.
  intros Hin. revert s. change (preserves w (ep_handler ep request)).
  cbn in Hin.
  repeat (destruct Hin as [<- | Hin]); [..|contradiction];
    unfold ep_handler, keyword_hunter, meta_master, article_forge, seo_analyzer,
      news_radar;
    repeat preserves_step.
Qed.

(** The response to a request whose required field is truthy and, for
    [meta_master], can be sliced: what [generate_text] returns for some
    prompt, wrapped. *)
Lemma handler_generates_truthy (ep : endpoint) (d : list (string * pyval))
      (v : pyval) (s : state) :
  In ep (endpoints w str_of_object subscript_error) ->
  lookup (ep_field ep) d = Some v ->
  py_truthy v = true ->
  (ep_field ep = "content" -> sliceable v = true) ->
  exists prompt out s',
    generate_text w prompt (ep_tool ep) s = (Ok out, s')
    /\ ep_handler ep (Ok (PDict d)) s = (Ok (respond out), s').
Proof.
  intros Hin Hv Htr Hsl. cbn in Hin.
  repeat (destruct Hin as [<- | Hin]); [..|contradiction];
    cbn in Hv, Hsl;
    unfold keyword_hunter, meta_master, article_forge, seo_analyzer, news_radar,
      dict_get, slice_1000;
    unfold_monad; cbn; rewrite Hv; cbn; rewrite Htr; cbn;
    try (specialize (Hsl eq_refl); destruct v; try discriminate Hsl; cbn);
    match goal with
    | |- context [generate_text w ?p ?t s] =>
        destruct (generate_text_run w p t s) as (s' & f & _ & Hrun & _);
        exists p, (report w t s' f), s'; rewrite Hrun; auto
    end.
Qed.

(** [meta_master] on a truthy content that cannot be sliced: the exception
    of [content[:1000]] is caught by the handler. *)
Lemma handler_unsliceable (d : list (string * pyval)) (v : pyval) (s : state) :
  lookup "content" d = Some v ->
  py_truthy v = true ->
  sliceable v = false ->
  meta_master w str_of_object subscript_error (Ok (PDict d)) s
  = (Ok (jsonify "error" ("Terjadi kesalahan server: " ++ subscript_error v) 500),
     push (Log ERROR ("Error in /api/meta-master endpoint: " ++ subscript_error v))
       s).
Proof.
  intros Hv Htr Hsl.
  unfold meta_master, dict_get, slice_1000. unfold_monad. cbn.
  rewrite Hv. cbn. rewrite Htr. cbn.
  destruct v; try discriminate Hsl; reflexivity.
Qed.
End HandlerFacts.

(** C8, as the program has it.  For a request whose JSON document is an
    object: when the required field is absent, or present with a falsy
    value, the handler answers 400 with its missing-field message and does
    not call [generate_text] (the globals and the log are untouched, and a
    call always logs); when the field has a truthy value, of any type, that
    the handler can put in its prompt (for [meta_master] the content must be
    a string or a list, the values [content[:1000]] accepts), the handler
    calls [generate_text] with its tool label and answers 500 with the
    returned string under [error] if the string contains the error marker,
    200 with it under [result] if not; and [meta_master] on a truthy content
    that cannot be sliced answers 500 with the text of the exception,
    without generation. *)
Theorem C8_handler_responses (w : World) (str_of_object subscript_error : pyval -> string)
        (ep : endpoint) (d : list (string * pyval)) (s : state) :
  In ep (endpoints w str_of_object subscript_error) ->
  (lookup (ep_field ep) d = None ->
     ep_handler ep (Ok (PDict d)) s
     = (Ok {| status := 400; body := ("error", ep_missing ep) |}, s)
     /\ forall prompt tool_name,
          snd (generate_text w prompt tool_name s) <> s)
  /\ (forall v,
        lookup (ep_field ep) d = Some v -> py_truthy v = false ->
        ep_handler ep (Ok (PDict d)) s
        = (Ok {| status := 400; body := ("error", ep_missing ep) |}, s))
  /\ (forall v,
        lookup (ep_field ep) d = Some v -> py_truthy v = true ->
        (ep_field ep = "content" -> sliceable v = true) ->
        exists prompt out s',
          generate_text w prompt (ep_tool ep) s = (Ok out, s')
          /\ ep_handler ep (Ok (PDict d)) s
             = (Ok (if str_in "--- Wolfgank AI Error" out
                    then {| status := 500; body := ("error", out) |}
                    else {| status := 200; body := ("result", out) |}),
                s'))
  /\ (forall v,
        ep_field ep = "content" ->
        lookup (ep_field ep) d = Some v -> py_truthy v = true ->
        sliceable v = false ->
        ep_handler ep (Ok (PDict d)) s
        = (Ok {| status := 500;
                 body := ("error",
                          "Terjadi kesalahan server: " ++ subscript_error v) |},
           push (Log ERROR ("Error in /api/meta-master endpoint: "
                            ++ subscript_error v)) s)).
Proof.
  intros Hin. split; [|split; [|split]].
  - intros Hnone. split.
    + apply (@handler_rejects _ _ _ _ d s Hin). now rewrite Hnone.
    + intros prompt tool_name. apply generate_text_changes.
  - intros v Hv Hfalse.
    apply (@handler_rejects _ _ _ _ d s Hin). now rewrite Hv.
  - intros v Hv Htr Hsl.
    destruct (@handler_generates_truthy _ _ _ _ _ _ s Hin Hv Htr Hsl)
      as (p & out & s' & Hg & Hh).
    exists p, out, s'. split; [assumption|].
    rewrite Hh. unfold respond, jsonify. now destruct (str_in _ out).
  - intros v Hfield Hv Htr Hsl. cbn in Hin.
    repeat (destruct Hin as [<- | Hin]); [..|contradiction];
      cbn in Hfield, Hv; try discriminate Hfield.
    cbn [ep_handler]. now apply handler_unsliceable.
Qed.

(** C8 fails as it is stated, on both sides.  A field that is present and
    empty gets the answer 400, not 500 or 200; a document that is not an
    object has no field and gets the answer 500; and a field that cannot be
    sliced gets the answer 500 from [meta_master] without any call of
    [generate_text]. *)
Lemma C8_counterexample :
  (lookup "topic" [("topic", PStr "")] = Some (PStr "")
   /\ keyword_hunter Examples.ollama_up Examples.str_of
        (Ok (PDict [("topic", PStr "")])) (Examples.booted Examples.ollama_up)
      = (Ok {| status := 400; body := ("error", "Topik diperlukan.") |},
         Examples.booted Examples.ollama_up))
  /\ keyword_hunter Examples.ollama_up Examples.str_of
       (Ok (PList [])) (Examples.booted Examples.ollama_up)
     = (Ok {| status := 500;
              body := ("error",
                       "Terjadi kesalahan server: 'list' object has no attribute 'get'") |},
        push (Log ERROR
                "Error in /api/keyword-hunter endpoint: 'list' object has no attribute 'get'")
          (Examples.booted Examples.ollama_up))
  /\ meta_master Examples.ollama_up Examples.str_of Examples.not_subscriptable
       (Ok (PDict [("content", PInt 5)])) (Examples.booted Examples.ollama_up)
     = (Ok {| status := 500;
              body := ("error",
                       "Terjadi kesalahan server: 'int' object is not subscriptable") |},
        push (Log ERROR
                "Error in /api/meta-master endpoint: 'int' object is not subscriptable")
          (Examples.booted Examples.ollama_up)).
Proof. repeat split. Qed.

(** C9. A required field that is present with a falsy value (an empty
    string, [null], [false], zero, an empty array or object) is handled as a
    missing one: the handler answers 400 with the same missing-field
    message, and the globals and the log are untouched, so [generate_text]
    was not called. *)
Theorem C9_falsy_field_rejected (w : World)
        (str_of_object subscript_error : pyval -> string)
        (ep : endpoint) (d : list (string * pyval)) (v : pyval) (s : state) :
  In ep (endpoints w str_of_object subscript_error) ->
  lookup (ep_field ep) d = Some v ->
  py_truthy v = false ->
  ep_handler ep (Ok (PDict d)) s
  = (Ok {| status := 400; body := ("error", ep_missing ep) |}, s)
  /\ ep_handler ep (Ok (PDict d)) s = ep_handler ep (Ok (PDict [])) s
  /\ (forall prompt tool_name, snd (generate_text w prompt tool_name s) <> s).
Proof.
  intros Hin Hv Hfalse. split; [|split].
  - apply (@handler_rejects _ _ _ _ d s Hin). now rewrite Hv.
  - rewrite (@handler_rejects _ _ _ _ d s Hin) by now rewrite Hv.
    now rewrite (@handler_rejects _ _ _ _ [] s Hin).
  - intros prompt tool_name. apply generate_text_changes.
Qed.

(** The falsy values of a JSON document. *)
Lemma falsy_values (v : pyval) :
  py_truthy v = false <->
  v = PNone \/ v = PBool false \/ v = PInt 0 \/ v = PStr ""
  \/ v = PList [] \/ v = PDict [].
Proof.
  split.
  - destruct v as [|[]|z|[|c x]|[|a l]|[|a l]]; cbn; try discriminate; auto 7.
    destruct (Z.eqb_spec z 0); [subst; auto | discriminate].
  - intros [-> | [-> | [-> | [-> | [-> | ->]]]]]; reflexivity.
Qed.

(** ** The properties at work on the example worlds *)

Import Examples.

Lemma C1_witness :
  ollama_available (booted ollama_up) = true
  /\ (exists reply,
        filter is_backend_call
          (events_since (booted ollama_up)
             (after ollama_up "kopi" "Keyword Hunter" (booted ollama_up)))
        = [Invoke Primary "kopi" reply])
  /\ hf_pipeline (after ollama_up "kopi" "Keyword Hunter" (booted ollama_up))
     = hf_pipeline (booted ollama_up).
Proof.
  split; [reflexivity|].
  destruct (C1_primary_only ollama_up "kopi" "Keyword Hunter"
              (booted ollama_up) eq_refl)
    as (Hcall & _ & _ & _ & Hpl & _).
  split; [exact Hcall | exact Hpl].
Defined.

Lemma C2_witness :
  (In (Invoke Secondary "kopi" (Ok ("kopi" ++ "  kopi lokal")))
      (events_since initial_state
         (after (fallback echoing) "kopi" "Keyword Hunter" initial_state))
   /\ result_text
        (generate_outcome (fallback echoing) "kopi" "Keyword Hunter" initial_state)
      = "kopi lokal")
  /\ (In (Invoke Secondary "kopi" (Ok "Kata kunci: kopi lokal"))
        (events_since initial_state
           (after (fallback terse) "kopi" "Keyword Hunter" initial_state))
      /\ startswith "Kata kunci: kopi lokal" "kopi" = false
      /\ result_text
           (generate_outcome (fallback terse) "kopi" "Keyword Hunter" initial_state)
         = "Kata kunci: kopi lokal").
Proof.
  assert (H1 : In (Invoke Secondary "kopi" (Ok ("kopi" ++ "  kopi lokal")))
                 (events_since initial_state
                    (after (fallback echoing) "kopi" "Keyword Hunter"
                       initial_state)))
    by (vm_compute; auto).
  assert (H2 : In (Invoke Secondary "kopi" (Ok "Kata kunci: kopi lokal"))
                 (events_since initial_state
                    (after (fallback terse) "kopi" "Keyword Hunter"
                       initial_state)))
    by (vm_compute; auto).
  split.
  - split; [exact H1|].
    exact (proj1 (proj1 (C2_echo_stripping (fallback echoing) "kopi"
                           "Keyword Hunter" initial_state) "  kopi lokal" H1)).
  - split; [exact H2 | split; [reflexivity|]].
    exact (proj1 (proj2 (C2_echo_stripping (fallback terse) "kopi"
                           "Keyword Hunter" initial_state)
                    "Kata kunci: kopi lokal" H2 eq_refl)).
Defined.

Lemma C3_witness :
  (ollama_available (booted bare) = false
   /\ TRANSFORMERS_AVAILABLE bare = false
   /\ error_message (generate_outcome bare "kopi" "Keyword Hunter" (booted bare))
      = Some msg_no_backend)
  /\ (ollama_available initial_state = false
      /\ In (Construct (Raise "model not found"))
           (events_since initial_state
              (after no_model "kopi" "Keyword Hunter" initial_state))
      /\ error_message (generate_outcome no_model "kopi" "Keyword Hunter" initial_state)
         = Some msg_init_failed)
  /\ (ollama_available (booted (fallback falsy)) = false
      /\ TRANSFORMERS_AVAILABLE (fallback falsy) = true
      /\ pipeline_truthy
           (hf_pipeline (after (fallback falsy) "kopi" "Keyword Hunter"
                           (booted (fallback falsy)))) = false
      /\ error_message
           (generate_outcome (fallback falsy) "kopi" "Keyword Hunter"
              (booted (fallback falsy)))
         = Some msg_not_available).
Proof.
  split; [|split].
  - split; [reflexivity | split; [reflexivity|]].
    destruct (C3_error_causes bare "kopi" "Keyword Hunter" (booted bare) eq_refl)
      as (Hmissing & _).
    exact (proj1 (proj2 (Hmissing eq_refl))).
  - assert (Hin : In (Construct (Raise "model not found"))
                    (events_since initial_state
                       (after no_model "kopi" "Keyword Hunter" initial_state)))
      by (vm_compute; auto).
    split; [reflexivity | split; [exact Hin|]].
    destruct (C3_error_causes no_model "kopi" "Keyword Hunter" initial_state eq_refl)
      as (_ & Hinit & _).
    exact (proj2 (Hinit "model not found" Hin)).
  - split; [reflexivity | split; [reflexivity | split; [reflexivity|]]].
    destruct (C3_error_causes (fallback falsy) "kopi" "Keyword Hunter"
                (booted (fallback falsy)) eq_refl)
      as (_ & _ & Habsent & _).
    refine (proj2 (Habsent eq_refl eq_refl _)).
    intros e Hin. vm_compute in Hin.
    repeat (destruct Hin as [Hin | Hin]; [discriminate Hin|]). exact Hin.
Defined.

(** C3 fails as it is stated: with Ollama unavailable, the transformers
    library present and a pipeline that works, the call ends with the source
    of the Hugging Face backend and returns a result report. *)
Lemma C3_counterexample :
  ollama_available (booted (fallback echoing)) = false
  /\ source (generate_outcome (fallback echoing) "kopi" "Keyword Hunter"
               (booted (fallback echoing)))
     <> "Error"
  /\ generate_outcome (fallback echoing) "kopi" "Keyword Hunter"
       (booted (fallback echoing))
     = {| result_text := "kopi lokal";
          source := "Hugging Face (google/gemma-2b)";
          error_message := None |}.
Proof. split; [reflexivity | split; [discriminate | reflexivity]]. Qed.

Lemma C4_witness :
  (reachable (fallback echoing) (booted (fallback echoing))
   /\ hf_pipeline (booted (fallback echoing)) <> None
   /\ exists s',
        initialize_hf_pipeline (fallback echoing) (booted (fallback echoing))
        = (Ok true, s')
        /\ count is_construct (events_since (booted (fallback echoing)) s') = 0)
  /\ (reachable (fallback echoing) initial_state
      /\ hf_pipeline initial_state = None
      /\ exists s1 s2,
           initialize_hf_pipeline (fallback echoing) initial_state = (Ok true, s1)
           /\ initialize_hf_pipeline (fallback echoing) s1 = (Ok true, s2)
           /\ count is_construct (events_since initial_state s2) = 1).
Proof.
  assert (R : reachable (fallback echoing) (booted (fallback echoing)))
    by (apply reach_startup, reach_import).
  assert (N : hf_pipeline (booted (fallback echoing)) <> None)
    by (vm_compute; discriminate).
  split.
  - split; [exact R | split; [exact N|]].
    destruct (proj1 (C4_initialize_idempotent R) N) as (s' & Hcall & _ & Hc & _).
    exists s'. split; [exact Hcall | exact Hc].
  - split; [apply reach_import | split; [reflexivity|]].
    destruct (proj2 (C4_initialize_idempotent (reach_import (fallback echoing)))
                (snd (initialize_hf_pipeline (fallback echoing) initial_state))
                eq_refl eq_refl)
      as (s2 & Hsecond & _ & _ & _ & _ & Hc).
    exists (snd (initialize_hf_pipeline (fallback echoing) initial_state)), s2.
    split; [reflexivity | split; [exact Hsecond | exact Hc]].
Defined.

Lemma C5_witness :
  (In (Invoke Primary "kopi" (Raise "connection refused"))
      (events_since (booted ollama_fails)
         (after ollama_fails "kopi" "Keyword Hunter" (booted ollama_fails)))
   /\ source (generate_outcome ollama_fails "kopi" "Keyword Hunter"
                (booted ollama_fails)) = "Error"
   /\ filter is_error_log
        (events_since (booted ollama_fails)
           (after ollama_fails "kopi" "Keyword Hunter" (booted ollama_fails)))
      = [Log ERROR
           "Error during text generation via Ollama (gemma3:1b) for Keyword Hunter: connection refused"])
  /\ (In (Invoke Secondary "kopi" (Raise "CUDA out of memory"))
        (events_since initial_state
           (after (fallback crashing) "kopi" "Keyword Hunter" initial_state))
      /\ source (generate_outcome (fallback crashing) "kopi" "Keyword Hunter"
                   initial_state) = "Error").
Proof.
  assert (H1 : In (Invoke Primary "kopi" (Raise "connection refused"))
                 (events_since (booted ollama_fails)
                    (after ollama_fails "kopi" "Keyword Hunter"
                       (booted ollama_fails))))
    by (vm_compute; auto).
  assert (H2 : In (Invoke Secondary "kopi" (Raise "CUDA out of memory"))
                 (events_since initial_state
                    (after (fallback crashing) "kopi" "Keyword Hunter"
                       initial_state)))
    by (vm_compute; auto).
  split.
  - destruct (proj2 (proj2 (C5_exceptions_caught ollama_fails "kopi"
                              "Keyword Hunter" (booted ollama_fails)))
                Primary "connection refused" H1)
      as (Hsrc & _ & _ & Hlog & _).
    split; [exact H1 | split; [exact Hsrc | exact Hlog]].
  - destruct (proj2 (proj2 (C5_exceptions_caught (fallback crashing) "kopi"
                              "Keyword Hunter" initial_state))
                Secondary "CUDA out of memory" H2)
      as (Hsrc & _).
    split; [exact H2 | exact Hsrc].
Defined.

Lemma C6_witness :
  source (generate_outcome ollama_up "kopi" "Keyword Hunter" (booted ollama_up))
  <> "Error"
  /\ exists out,
       returned ollama_up "kopi" "Keyword Hunter" (booted ollama_up) = Ok out
       /\ out = "--- Wolfgank AI [Keyword Hunter] Result (Ollama (gemma3:1b) @ 2025-04-09 12:00:07) ---"
                ++ nl ++ nl ++ "1. kopi lokal" ++ nl ++ nl
                ++ "--- End of Report ---".
Proof.
  assert (N : source (generate_outcome ollama_up "kopi" "Keyword Hunter"
                        (booted ollama_up)) <> "Error")
    by (vm_compute; discriminate).
  split; [exact N|].
  destruct (C6_result_banner ollama_up "kopi" "Keyword Hunter" (booted ollama_up) N)
    as (out & Hret & Hout & _).
  exists out. split; [exact Hret | exact Hout].
Defined.

Lemma C7_witness :
  source (generate_outcome bare "kopi" "Keyword Hunter" (booted bare)) = "Error"
  /\ exists out,
       returned bare "kopi" "Keyword Hunter" (booted bare) = Ok out
       /\ out = "--- Wolfgank AI Error (2025-04-09 12:00:07) ---" ++ nl ++ nl
                ++ "Error: Ollama is unavailable and the Transformers library is not installed. Cannot generate text."
                ++ " Fallback Status: Error: Transformers Missing." ++ nl
                ++ "Please check logs and model availability." ++ nl ++ nl
                ++ "--- End of Report ---".
Proof.
  split; [reflexivity|].
  destruct (C7_error_banner bare "kopi" "Keyword Hunter" (booted bare) eq_refl)
    as (out & msg & Hret & Hmsg & Hout & _).
  exists out. split; [exact Hret|].
  injection Hmsg as <-. exact Hout.
Defined.

Lemma C8_witness :
  In (mkEndpoint (keyword_hunter ollama_up str_of) "topic" "Topik diperlukan."
        "Keyword Hunter")
     (endpoints ollama_up str_of not_subscriptable)
  /\ (lookup "topic" [] = None
      /\ keyword_hunter ollama_up str_of (Ok (PDict [])) (booted ollama_up)
         = (Ok {| status := 400; body := ("error", "Topik diperlukan.") |},
            booted ollama_up))
  /\ (lookup "topic" [("topic", PInt 5)] = Some (PInt 5)
      /\ py_truthy (PInt 5) = true
      /\ exists prompt out s',
           generate_text ollama_up prompt "Keyword Hunter" (booted ollama_up)
           = (Ok out, s')
           /\ keyword_hunter ollama_up str_of
                (Ok (PDict [("topic", PInt 5)])) (booted ollama_up)
              = (Ok (if str_in "--- Wolfgank AI Error" out
                     then {| status := 500; body := ("error", out) |}
                     else {| status := 200; body := ("result", out) |}),
                 s'))
  /\ (In (mkEndpoint (meta_master ollama_up str_of not_subscriptable) "content"
            "Konten diperlukan." "Meta Master")
         (endpoints ollama_up str_of not_subscriptable)
      /\ lookup "content" [("content", PList [PStr "kopi"])]
         = Some (PList [PStr "kopi"])
      /\ sliceable (PList [PStr "kopi"]) = true
      /\ (exists prompt out s',
            generate_text ollama_up prompt "Meta Master" (booted ollama_up)
            = (Ok out, s')
            /\ meta_master ollama_up str_of not_subscriptable
                 (Ok (PDict [("content", PList [PStr "kopi"])]))
                 (booted ollama_up)
               = (Ok (if str_in "--- Wolfgank AI Error" out
                      then {| status := 500; body := ("error", out) |}
                      else {| status := 200; body := ("result", out) |}),
                  s'))
      /\ sliceable (PInt 5) = false
      /\ meta_master ollama_up str_of not_subscriptable
           (Ok (PDict [("content", PInt 5)])) (booted ollama_up)
         = (Ok {| status := 500;
                  body := ("error",
                           "Terjadi kesalahan server: " ++ not_subscriptable (PInt 5)) |},
            push (Log ERROR ("Error in /api/meta-master endpoint: "
                             ++ not_subscriptable (PInt 5)))
              (booted ollama_up))).
Proof.
  assert (Hin : In (mkEndpoint (keyword_hunter ollama_up str_of) "topic"
                      "Topik diperlukan." "Keyword Hunter")
                   (endpoints ollama_up str_of not_subscriptable))
    by (left; reflexivity).
  assert (Hmm : In (mkEndpoint (meta_master ollama_up str_of not_subscriptable)
                      "content" "Konten diperlukan." "Meta Master")
                   (endpoints ollama_up str_of not_subscriptable))
    by (right; left; reflexivity).
  split; [exact Hin | split; [|split]].
  - split; [reflexivity|].
    exact (proj1 (proj1 (@C8_handler_responses _ _ _ _ [] (booted ollama_up) Hin)
                    eq_refl)).
  - split; [reflexivity | split; [reflexivity|]].
    refine (proj1 (proj2 (proj2 (@C8_handler_responses _ _ _ _
                                   [("topic", PInt 5)] (booted ollama_up) Hin)))
              (PInt 5) eq_refl eq_refl _).
    intros Hf. discriminate Hf.
  - split; [exact Hmm | split; [reflexivity | split; [reflexivity|]]].
    split.
    + exact (proj1 (proj2 (proj2 (@C8_handler_responses _ _ _ _
                                    [("content", PList [PStr "kopi"])]
                                    (booted ollama_up) Hmm)))
               (PList [PStr "kopi"]) eq_refl eq_refl (fun _ => eq_refl)).
    + split; [reflexivity|].
      exact (proj2 (proj2 (proj2 (@C8_handler_responses _ _ _ _
                                    [("content", PInt 5)]
                                    (booted ollama_up) Hmm)))
               (PInt 5) eq_refl eq_refl eq_refl eq_refl).
Defined.

Lemma C9_witness :
  In (mkEndpoint (meta_master ollama_up str_of not_subscriptable) "content"
        "Konten diperlukan." "Meta Master")
     (endpoints ollama_up str_of not_subscriptable)
  /\ lookup "content" [("content", PStr "")] = Some (PStr "")
  /\ py_truthy (PStr "") = false
  /\ meta_master ollama_up str_of not_subscriptable
       (Ok (PDict [("content", PStr "")])) (booted ollama_up)
     = (Ok {| status := 400; body := ("error", "Konten diperlukan.") |},
        booted ollama_up).
Proof.
  assert (Hin : In (mkEndpoint (meta_master ollama_up str_of not_subscriptable)
                      "content" "Konten diperlukan." "Meta Master")
                   (endpoints ollama_up str_of not_subscriptable))
    by (right; left; reflexivity).
  split; [exact Hin | split; [reflexivity | split; [reflexivity|]]].
  exact (proj1 (@C9_falsy_field_rejected _ _ _ _ [("content", PStr "")] (PStr "")
                  (booted ollama_up) Hin eq_refl eq_refl)).
Defined.

Lemma C10_witness :
  str_in error_marker "Keyword Hunter" = false
  /\ str_in error_marker
       (result_text (generate_outcome ollama_fails "kopi" "Keyword Hunter"
                       (booted ollama_fails))) = false
  /\ source (generate_outcome ollama_fails "kopi" "Keyword Hunter"
               (booted ollama_fails)) = "Error"
  /\ exists out,
       returned ollama_fails "kopi" "Keyword Hunter" (booted ollama_fails) = Ok out
       /\ str_in error_marker out = true.
Proof.
  split; [reflexivity | split; [reflexivity | split; [reflexivity|]]].
  destruct (C10_banner_markers ollama_fails "kopi" "Keyword Hunter"
              (booted ollama_fails))
    as (out & Hret & _ & _ & _ & Hiff).
  exists out. split; [exact Hret|].
  apply (Hiff eq_refl eq_refl). reflexivity.
Defined.

(** ** More about the generation layer *)

(** X1. A call of [generate_text] never changes [ollama_available] and only
    appends to the log; it changes [hf_pipeline] or [GENERATION_METHOD] only
    when it attempted a construction; and it never drops or replaces a
    pipeline that was there. *)
Theorem X1_generate_frame (w : World) (prompt tool_name : string) (s : state) :
  let s' := after w prompt tool_name s in
  let new := events_since s s' in
  ollama_available s' = ollama_available s
  /\ events s' = (new ++ events s)%list
  /\ (count is_construct new = 0 ->
      hf_pipeline s' = hf_pipeline s
      /\ GENERATION_METHOD s' = GENERATION_METHOD s)
  /\ (forall pl, hf_pipeline s = Some pl -> hf_pipeline s' = Some pl).
Proof.
  run_generate w prompt tool_name s.
  destruct Hspec; split_ready; try subst s1; try subst s0;
    simpl_events_since; cbn; repeat split; try discriminate; congruence.
Qed.

(** X2. With Ollama unavailable and a pipeline already there, a call does
    not enter [initialize_hf_pipeline] and constructs nothing; it keeps the
    pipeline and [GENERATION_METHOD]; and it invokes that pipeline once, with
    the prompt, if the object is truthy, and not at all if it is not. *)
Theorem X2_generate_with_handle (w : World) (prompt tool_name : string)
        (s : state) (pl : Pipeline) :
  ollama_available s = false ->
  TRANSFORMERS_AVAILABLE w = true ->
  hf_pipeline s = Some pl ->
  let s' := after w prompt tool_name s in
  let new := events_since s s' in
  count is_enter_init new = 0
  /\ count is_construct new = 0
  /\ hf_pipeline s' = Some pl
  /\ GENERATION_METHOD s' = GENERATION_METHOD s
  /\ filter is_backend_call new
     = (if pl_truthy pl
        then [Invoke Secondary prompt (pl_call pl (S (length (events s))) prompt)]
        else []).
Proof.
  intros Hoa HTA Hpl. run_generate w prompt tool_name s.
  destruct Hspec; split_ready; try subst s1; try subst s0; try congruence;
    simpl_events_since; cbn;
    match goal with
    | H1 : hf_pipeline s = Some ?p, H2 : hf_pipeline s = Some pl |- _ =>
        assert (p = pl) by congruence; subst p
    end;
    match goal with H : pl_truthy pl = _ |- _ => rewrite H end;
    repeat split; try assumption;
    match goal with H : pl_call pl _ prompt = _ |- _ => cbn in H; now rewrite H end.
Qed.

(** Without a handle, every call makes one construction attempt. *)
Lemma construct_attempted (w : World) (prompt tool_name : string) (s : state) :
  ollama_available s = false ->
  TRANSFORMERS_AVAILABLE w = true ->
  hf_pipeline s = None ->
  let new := events_since s (after w prompt tool_name s) in
  count is_enter_init new = 1 /\ count is_construct new = 1.
Proof.
  intros Hoa HTA Hpl. run_generate w prompt tool_name s.
  destruct Hspec; split_ready; try subst s1; try subst s0; try congruence;
    simpl_events_since; cbn; auto.
Qed.

(** X3. With Ollama unavailable, the transformers library present and no
    pipeline yet, a call enters [initialize_hf_pipeline] once and attempts one
    construction.  If the construction raises, no backend is invoked, the
    handle stays [None], [GENERATION_METHOD] becomes the error tag, the
    report is the error report with the initialization message and that tag
    as fallback status, and the next call attempts the construction again.
    If it returns an object, the handle holds it, [GENERATION_METHOD] is
    [Hugging Face], and the object is invoked once if it is truthy. *)
Theorem X3_generate_without_handle (w : World) (prompt tool_name : string)
        (s : state) :
  ollama_available s = false ->
  TRANSFORMERS_AVAILABLE w = true ->
  hf_pipeline s = None ->
  let s' := after w prompt tool_name s in
  let new := events_since s s' in
  count is_enter_init new = 1
  /\ count is_construct new = 1
  /\ (forall e,
        In (Construct (Raise e)) new ->
        hf_pipeline s' = None
        /\ GENERATION_METHOD s' = "Error: HF Init Failed"
        /\ count is_backend_call new = 0
        /\ returned w prompt tool_name s
           = Ok ("--- Wolfgank AI Error (" ++ timestamp_at w s' ++ ") ---"
                 ++ nl ++ nl
                 ++ "Error: Failed to initialize Hugging Face fallback model (google/gemma-2b)."
                 ++ " Fallback Status: Error: HF Init Failed." ++ nl
                 ++ "Please check logs and model availability." ++ nl ++ nl
                 ++ "--- End of Report ---")
        /\ forall prompt' tool_name',
             count is_construct
               (events_since s' (after w prompt' tool_name' s')) = 1)
  /\ (forall pl,
        In (Construct (Ok pl)) new ->
        hf_pipeline s' = Some pl
        /\ GENERATION_METHOD s' = "Hugging Face"
        /\ count is_backend_call new = (if pl_truthy pl then 1 else 0)).
Proof.
  intros Hoa HTA Hpl.
  split; [apply (@construct_attempted w prompt tool_name s Hoa HTA Hpl)|].
  split; [apply (@construct_attempted w prompt tool_name s Hoa HTA Hpl)|].
  pose proof (fun s1 p t (A : ollama_available s1 = false)
                  (B : hf_pipeline s1 = None) =>
                proj2 (@construct_attempted w p t s1 A HTA B)) as Hagain.
  revert Hagain. run_generate w prompt tool_name s. intros Hagain.
  split.
  - intros e Hin.
    destruct Hspec; split_ready; try subst s1; try subst s0; try congruence;
      revert Hin; simpl_events_since; intros Hin; find_event Hin.
    injection Hin as <-.
    repeat split.
    intros p t. now apply Hagain.
  - intros pl Hin.
    destruct Hspec; split_ready; try subst s1; try subst s0; try congruence;
      revert Hin; simpl_events_since; intros Hin; find_event Hin;
      injection Hin as <-; cbn;
      match goal with H : pl_truthy _ = _ |- _ => rewrite H end; auto.
Qed.

(** X4. With Ollama unavailable and no transformers library, a call reaches
    nothing outside the program: it logs one error line and that is all, no
    global changes, and the report is the error report with the no-backend
    message and a fallback note that is never empty. *)
Theorem X4_generate_without_backend (w : World) (prompt tool_name : string)
        (s : state) :
  ollama_available s = false ->
  TRANSFORMERS_AVAILABLE w = false ->
  let s' := after w prompt tool_name s in
  events_since s s' = [Log ERROR msg_no_backend]
  /\ hf_pipeline s' = hf_pipeline s
  /\ GENERATION_METHOD s' = GENERATION_METHOD s
  /\ returned w prompt tool_name s
     = Ok ("--- Wolfgank AI Error (" ++ timestamp_at w s' ++ ") ---" ++ nl ++ nl
           ++ msg_no_backend
           ++ (if startswith (GENERATION_METHOD s) "Error"
               then " Fallback Status: " ++ GENERATION_METHOD s ++ "."
               else " Fallback attempted but Transformers library is missing.")
           ++ nl ++ "Please check logs and model availability." ++ nl ++ nl
           ++ "--- End of Report ---").
Proof.
  intros Hoa HTA. run_generate w prompt tool_name s.
  destruct Hspec; try congruence.
  simpl_events_since. repeat split.
  unfold report, error_report, fallback_info.
  cbn [source error_message py_or negb ollama_available push
       GENERATION_METHOD hf_pipeline].
  change (negb ("Error" =? "Error")) with false.
  change (truthy msg_no_backend) with true. cbv iota.
  rewrite Hoa, HTA.
  now destruct (startswith (GENERATION_METHOD s) "Error").
Qed.

(** X5. Whatever backend a call invokes, it hands it the prompt it was given,
    unchanged.  The backend is Ollama exactly when [ollama_available] is
    true; a pipeline is invoked only where the transformers library is
    present, and it is the truthy object the handle holds after the call. *)
Theorem X5_backend_selection (w : World) (prompt tool_name : string) (s : state)
        (b : backend) (p : string) (reply : result string) :
  let s' := after w prompt tool_name s in
  In (Invoke b p reply) (events_since s s') ->
  p = prompt
  /\ (b = Primary <-> ollama_available s = true)
  /\ (b = Secondary ->
      TRANSFORMERS_AVAILABLE w = true
      /\ exists pl, hf_pipeline s' = Some pl /\ pl_truthy pl = true).
Proof.
  run_generate w prompt tool_name s. intros Hin.
  destruct Hspec; split_ready; try subst s1; try subst s0;
    revert Hin; simpl_events_since; intros Hin; find_event Hin;
    injection Hin as <- <- <-;
    (split; [reflexivity|]);
    (split; [split; congruence|]);
    intros; try discriminate;
    (split; [assumption|]);
    (eexists; split; [cbn; eauto | assumption]).
Qed.

(** X6. A call ends with the source [Error] exactly when it logged an error
    line.  It logs at most two, and two only when the initialization it made
    failed. *)
Theorem X6_error_logged (w : World) (prompt tool_name : string) (s : state) :
  let o := generate_outcome w prompt tool_name s in
  let new := events_since s (after w prompt tool_name s) in
  (source o = "Error" <-> count is_error_log new <> 0)
  /\ count is_error_log new <= 2
  /\ (count is_error_log new = 2 <-> exists e, In (Construct (Raise e)) new).
Proof.
  run_generate w prompt tool_name s.
  destruct Hspec; split_ready; try subst s1; try subst s0;
    simpl_events_since; cbn;
    (split; [split; intros; first [congruence | discriminate | lia]|]);
    (split; [lia|]);
    (split; [intros; first [lia | discriminate | (eexists; eauto 10)]
            | intros (e' & Hin); find_event Hin; reflexivity]).
Qed.

(** ** The pipeline initializer and the main block *)

Section Initializer.

Variable w : World.

(** The three ways [initialize_hf_pipeline] goes, in one statement. *)
Lemma initialize_cases (s : state) :
  (TRANSFORMERS_AVAILABLE w = false
   /\ initialize_hf_pipeline w s
      = (Ok false,
         set_GENERATION_METHOD "Error: Transformers Missing"
           (push (Log ERROR
              "Transformers library not installed. Cannot initialize Hugging Face pipeline.")
              (push EnterInit s))))
  \/ (TRANSFORMERS_AVAILABLE w = true
      /\ (exists pl, hf_pipeline s = Some pl)
      /\ initialize_hf_pipeline w s = (Ok true, push EnterInit s))
  \/ (TRANSFORMERS_AVAILABLE w = true
      /\ hf_pipeline s = None
      /\ exists pl,
           initialize_hf_pipeline w s
           = (Ok true,
              set_GENERATION_METHOD "Hugging Face"
                (push (Log INFO log_init_ok)
                   (set_hf_pipeline (Some pl)
                      (push (Construct (Ok pl))
                         (push (Log INFO log_init_start) (push EnterInit s)))))))
  \/ (TRANSFORMERS_AVAILABLE w = true
      /\ hf_pipeline s = None
      /\ exists e,
           initialize_hf_pipeline w s
           = (Ok false,
              set_GENERATION_METHOD "Error: HF Init Failed"
                (set_hf_pipeline None
                   (push (Log ERROR (log_init_error e))
                      (push (Construct (Raise e))
                         (push (Log INFO log_init_start) (push EnterInit s))))))).
Proof.
  destruct (TRANSFORMERS_AVAILABLE w) eqn:HTA.
  - destruct (hf_pipeline s) as [pl|] eqn:Hpl.
    + right; left. split; [reflexivity|]. split; [eauto|].
      now apply initialize_present with pl.
    + pose proof (initialize_absent w s HTA Hpl) as E. cbv zeta in E.
      match type of E with
      | context [pipeline w ?n] => destruct (pipeline w n) as [pl|e]
      end.
      * right; right; left. eauto.
      * right; right; right. eauto.
  - left. split; [reflexivity|]. now apply initialize_missing.
Qed.

(** X7. In a state the program can reach, [initialize_hf_pipeline] raises
    nothing and its result tells whether a pipeline is there afterwards: it
    returns true exactly when [hf_pipeline] is not [None] after the call.
    When it returns false, [GENERATION_METHOD] carries an error tag; when it
    returns true after building the pipeline, [GENERATION_METHOD] is
    [Hugging Face].  It never changes [ollama_available] and constructs at
    most once. *)
Theorem X7_initialize_result (s : state) :
  reachable w s ->
  exists ok s',
    initialize_hf_pipeline w s = (Ok ok, s')
    /\ (ok = true <-> hf_pipeline s' <> None)
    /\ (ok = false -> error_tagged s' = true)
    /\ (ok = true -> hf_pipeline s = None ->
        GENERATION_METHOD s' = "Hugging Face")
    /\ ollama_available s' = ollama_available s
    /\ count is_construct (events_since s s') <= 1.
Proof.
  intros R.
  destruct (initialize_cases s)
    as [[HTA E] | [(HTA & [pl Hpl] & E) | [(HTA & Hpl & [pl E])
                                          | (HTA & Hpl & [e E])]]];
    rewrite E; eexists _, _; (split; [reflexivity|]);
    simpl_events_since; cbn.
  - pose proof (reachable_handle R HTA) as Hnone. rewrite Hnone.
    repeat split; intros; try discriminate; try congruence; lia.
  - rewrite Hpl. repeat split; intros; try discriminate; try congruence; lia.
  - repeat split; intros; try discriminate; try congruence; lia.
  - repeat split; intros; try discriminate; try congruence; lia.
Qed.

End Initializer.

Arguments initialize_hf_pipeline : simpl never.

Section MainBlock.

Variable w : World.

(** The two ways of the main block: the probe answers, or it raises and the
    initializer runs. *)
Lemma startup_cases (s : state) :
  let s0 := push (Log INFO ("Checking Ollama availability (Model: "
                            ++ OLLAMA_MODEL ++ ")...")) s in
  let s1 := push (Probe (ollama_list w (length (events s0)))) s0 in
  (ollama_list w (length (events s0)) = Ok tt
   /\ startup w s
      = (Ok tt,
         push (Log INFO ("Starting Flask server. Text Generation active method: "
                         ++ source_label Primary))
           (push (Log INFO ("Ollama service detected. Using primary generation method: "
                            ++ source_label Primary))
              (set_GENERATION_METHOD (source_label Primary)
                 (set_ollama_available true s1)))))
  \/ (exists e ok s3,
        ollama_list w (length (events s0)) = Raise e
        /\ initialize_hf_pipeline w
             (push (Log WARNING
                      ("Could not connect to Ollama. Will attempt Hugging Face fallback. Error: "
                       ++ e))
                (set_ollama_available false s1))
           = (Ok ok, s3)
        /\ startup w s
           = (Ok tt,
              push (Log INFO ("Starting Flask server. Text Generation active method: "
                              ++ GENERATION_METHOD s3)) s3)).
Proof.
  intros s0 s1. subst s0 s1. cbn [events push length].
  destruct (ollama_list w (S (length (events s)))) as [[]|e] eqn:Hl.
  - left. split; [reflexivity|].
    unfold startup. unfold_monad. cbn. now rewrite Hl.
  - right. exists e.
    match goal with
    | |- context [initialize_hf_pipeline w ?s2] =>
        destruct (initialize_cases w s2)
          as [[_ E] | [(_ & _ & E) | [(_ & _ & [pl E]) | (_ & _ & [e' E])]]]
    end;
      eexists _, _; (split; [reflexivity|]); (split; [exact E|]);
      unfold startup; unfold_monad; cbn; rewrite Hl; cbn;
      cbn in E; rewrite E; reflexivity.
Qed.

(** X8. The main block raises nothing and probes Ollama once.  If the probe
    answers, [ollama_available] is true, [GENERATION_METHOD] is the Ollama
    label and the pipeline is left alone: the initializer is not entered.  If
    the probe raises, [ollama_available] is false, the initializer is entered
    once, and afterwards a pipeline is there or [GENERATION_METHOD] carries
    an error tag.  The last line logged names the [GENERATION_METHOD] the
    server starts with. *)
Theorem X8_startup_outcome (s : state) :
  let s' := snd (startup w s) in
  let new := events_since s s' in
  fst (startup w s) = Ok tt
  /\ count is_probe new = 1
  /\ hd_error new
     = Some (Log INFO ("Starting Flask server. Text Generation active method: "
                       ++ GENERATION_METHOD s'))
  /\ (In (Probe (Ok tt)) new ->
      ollama_available s' = true
      /\ GENERATION_METHOD s' = "Ollama (gemma3:1b)"
      /\ hf_pipeline s' = hf_pipeline s
      /\ count is_enter_init new = 0)
  /\ (forall e,
        In (Probe (Raise e)) new ->
        ollama_available s' = false
        /\ count is_enter_init new = 1
        /\ count is_construct new <= 1
        /\ (hf_pipeline s' <> None \/ error_tagged s' = true)).
Proof.
  destruct (startup_cases s) as [[Hl E] | (e & ok & s3 & Hl & Hi & E)];
    cbv zeta in *; cbn [events push length] in Hl.
  - rewrite E. cbn [fst snd]. simpl_events_since.
    cbn [events push length]. rewrite Hl. cbn.
    do 3 (split; [reflexivity|]). split; [intros _; repeat split|].
    intros e' Hin. find_event Hin.
  - rewrite E. cbn [fst snd].
    match type of Hi with
    | initialize_hf_pipeline w ?s2 = _ =>
        destruct (initialize_cases w s2)
          as [[_ E2] | [(_ & [pl Hpl] & E2)
                       | [(_ & _ & [pl E2]) | (_ & _ & [e' E2])]]];
        rewrite E2 in Hi; injection Hi as <- <-;
        simpl_events_since; cbn [events push length]; rewrite Hl; cbn;
        do 3 (split; [reflexivity|]);
        (split; [intros Hin; find_event Hin|]);
        intros e2 _; do 3 (split; [reflexivity || lia|])
    end.
    + now right.
    + left. cbn in Hpl. rewrite Hpl. discriminate.
    + left. discriminate.
    + now right.
Qed.

End MainBlock.

(** *** An invariant of the method label *)

Section Label.

Variable w : World.

(** The invariant: where a pipeline is held, the library is present and
    [GENERATION_METHOD] has no error tag. *)
Lemma initialize_keeps_label (s : state) :
  (TRANSFORMERS_AVAILABLE w = false -> hf_pipeline s = None) ->
  (hf_pipeline s <> None -> error_tagged s = false) ->
  hf_pipeline (snd (initialize_hf_pipeline w s)) <> None ->
  error_tagged (snd (initialize_hf_pipeline w s)) = false.
Proof.
  intros Hlib Hinv.
  destruct (initialize_cases w s)
    as [[HTA E] | [(HTA & [pl Hpl] & E) | [(HTA & Hpl & [pl E])
                                          | (HTA & Hpl & [e E])]]];
    rewrite E; cbn [snd]; cbn; intros Hsome.
  - rewrite (Hlib HTA) in Hsome. congruence.
  - apply Hinv. congruence.
  - reflexivity.
  - congruence.
Qed.

Lemma startup_keeps_label (s : state) :
  (TRANSFORMERS_AVAILABLE w = false -> hf_pipeline s = None) ->
  (hf_pipeline s <> None -> error_tagged s = false) ->
  hf_pipeline (snd (startup w s)) <> None ->
  error_tagged (snd (startup w s)) = false.
Proof.
  intros Hlib Hinv.
  destruct (startup_cases w s) as [[Hl E] | (e & ok & s3 & Hl & Hi & E)];
    cbv zeta in *; rewrite E; cbn [snd].
  - reflexivity.
  - match type of Hi with
    | initialize_hf_pipeline w ?s2 = _ =>
        pose proof (@initialize_keeps_label s2 Hlib Hinv) as K
    end.
    rewrite Hi in K. exact K.
Qed.

Lemma generate_keeps_label (prompt tool_name : string) (s : state) :
  (hf_pipeline s <> None -> error_tagged s = false) ->
  hf_pipeline (snd (generate_text w prompt tool_name s)) <> None ->
  error_tagged (snd (generate_text w prompt tool_name s)) = false.
Proof.
  intros Hinv. run_generate w prompt tool_name s.
  destruct Hspec; split_ready; try subst s1; try subst s0; cbn;
    intros Hsome; try congruence; try reflexivity;
    apply Hinv; congruence.
Qed.

(** X9. In every state the program can reach, a pipeline in [hf_pipeline]
    means that the transformers library is present and that
    [GENERATION_METHOD] has no error tag; so the error report of a call made
    with a pipeline loaded carries no fallback note. *)
Theorem X9_label_invariant (s : state) (pl : Pipeline) :
  reachable w s ->
  hf_pipeline s = Some pl ->
  TRANSFORMERS_AVAILABLE w = true
  /\ error_tagged s = false
  /\ fallback_info w s = "".
Proof.
  intros R Hpl.
  assert (HTA : TRANSFORMERS_AVAILABLE w = true).
  { destruct (TRANSFORMERS_AVAILABLE w) eqn:HTA; [reflexivity|].
    rewrite (reachable_handle R HTA) in Hpl. discriminate. }
  assert (Htag : hf_pipeline s <> None -> error_tagged s = false).
  { clear Hpl pl. induction R as [|s R IH|s R IH|s p t R IH|s lvl msg R IH].
    - intros N. now contradiction N.
    - apply startup_keeps_label; [|exact IH].
      intros F. congruence.
    - apply initialize_keeps_label; [|exact IH].
      intros F. congruence.
    - now apply generate_keeps_label.
    - exact IH. }
  split; [exact HTA|]. split; [apply Htag; congruence|].
  unfold fallback_info. unfold error_tagged in Htag.
  rewrite Htag, HTA, Hpl by congruence.
  now destruct (ollama_available s).
Qed.

End Label.

(** ** More about the request handlers *)

Section HandlerRuns.

Variable w : World.
Variable str_of_object : pyval -> string.
Variable subscript_error : pyval -> string.

(** With a required field that is a string and not empty, a handler answers
    with what [generate_text] returns for the prompt of its table entry. *)
Lemma handler_runs (ep : endpoint)
      (build : list (string * pyval) -> string -> string)
      (d : list (string * pyval)) (x : string) (s : state) :
  In (ep, build) (prompt_table w str_of_object subscript_error) ->
  lookup (ep_field ep) d = Some (PStr x) ->
  x <> "" ->
  exists out s',
    generate_text w (build d x) (ep_tool ep) s = (Ok out, s')
    /\ ep_handler ep (Ok (PDict d)) s = (Ok (respond out), s').
Proof.
  intros Hin Hx Hne. cbn in Hin.
  assert (Htr : truthy x = true) by (destruct x; [congruence | reflexivity]).
  repeat (destruct Hin as [Hin | Hin]; [injection Hin as <- <-|]);
    [..|contradiction];
    cbn [ep_field ep_tool ep_handler] in *;
    match goal with
    | |- context [generate_text w ?p ?t s] =>
        destruct (generate_text_run w p t s) as (s' & f & _ & Hrun & _);
        exists (report w t s' f), s'; split; [exact Hrun|]
    end;
    unfold keyword_hunter, meta_master, article_forge, seo_analyzer, news_radar,
      keywords_of in *;
    unfold_monad; cbn; rewrite Hx; cbn; rewrite Htr; cbn;
    match goal with
    | |- context [generate_text w ?P ?t s] =>
        replace (generate_text w P t s) with (Ok (report w t s' f), s')
          by (rewrite <- Hrun; reflexivity)
    end;
    reflexivity.
Qed.

Ltac outcome_leaf s :=
  first
    [ right; left; reflexivity
    | left; eexists _, _; reflexivity
    | right; right;
      match goal with
      | |- context [generate_text w ?p ?t s] =>
          let s' := fresh "s'" in
          let f := fresh "f" in
          let Hrun := fresh "Hrun" in
          destruct (generate_text_run w p t s) as (s' & f & _ & Hrun & _);
          exists p, (report w t s' f), s'; rewrite Hrun; split; reflexivity
      end ].

Lemma handler_outcomes (ep : endpoint) (request : result pyval) (s : state) :
  In ep (endpoints w str_of_object subscript_error) ->
  (exists e line,
     ep_handler ep request s
     = (Ok (jsonify "error" ("Terjadi kesalahan server: " ++ e) 500),
        push (Log ERROR line) s))
  \/ ep_handler ep request s = (Ok (jsonify "error" (ep_missing ep) 400), s)
  \/ (exists prompt out s',
        generate_text w prompt (ep_tool ep) s = (Ok out, s')
        /\ ep_handler ep request s = (Ok (respond out), s')).
Proof.
  intros Hin. cbn in Hin.
  repeat (destruct Hin as [<- | Hin]); [..|contradiction];
    cbn [ep_handler ep_missing ep_tool];
    unfold keyword_hunter, meta_master, article_forge, seo_analyzer, news_radar,
      dict_get, slice_1000;
    unfold_monad;
    (destruct request as [v|e]; [|outcome_leaf s]);
    (destruct v as [| | | |l|d]; try outcome_leaf s);
    cbn;
    match goal with
    | |- context [lookup ?k d] =>
        destruct (match lookup k d with Some v => v | None => PNone end)
          as [|[]|z|x|l|d'] eqn:Hv
    end;
    try (destruct (Z.eqb z 0) eqn:Hz);
    try (destruct x as [|c x]);
    try (destruct l as [|a l]);
    try (destruct d' as [|a d']);
    cbn; rewrite ?Hz; cbn; outcome_leaf s.
Qed.

(** X10. A request that cannot be read, or whose JSON document is not an
    object, never reaches validation or generation: the handler answers 500
    with the text of the exception after [Terjadi kesalahan server], logs one
    error line that names its route, and changes nothing else. *)
Theorem X10_malformed_request (route : string)
        (handler : result pyval -> M state response) (s : state) :
  In (route, handler) (api_routes w str_of_object subscript_error) ->
  (forall e,
     handler (Raise e) s
     = (Ok {| status := 500;
              body := ("error", "Terjadi kesalahan server: " ++ e) |},
        push (Log ERROR ("Error in " ++ route ++ " endpoint: " ++ e)) s))
  /\ (forall v,
        not_dict v = true ->
        handler (Ok v) s
        = (Ok {| status := 500;
                 body := ("error",
                          "Terjadi kesalahan server: '" ++ type_name v
                          ++ "' object has no attribute 'get'") |},
           push (Log ERROR ("Error in " ++ route ++ " endpoint: '"
                            ++ type_name v ++ "' object has no attribute 'get'"))
             s)).
Proof.
  intros Hin. cbn in Hin.
  repeat (destruct Hin as [Hin | Hin]; [injection Hin as <- <-|]);
    [..|contradiction];
    (split; [reflexivity|]);
    intros v Hv; destruct v; try discriminate Hv; reflexivity.
Qed.

(** X11. Whatever the request, a handler raises nothing: it answers 200, 400
    or 500.  The body has the key [result] exactly when the status is 200 and
    the key [error] otherwise; a 200 body never contains the error marker;
    and a 400 answer carries the missing-field message of the endpoint and
    leaves the globals and the log untouched. *)
Theorem X11_handler_response (ep : endpoint) (request : result pyval) (s : state) :
  In ep (endpoints w str_of_object subscript_error) ->
  exists resp s',
    ep_handler ep request s = (Ok resp, s')
    /\ (status resp = 200 \/ status resp = 400 \/ status resp = 500)
    /\ (status resp = 200 <-> fst (body resp) = "result")
    /\ (status resp <> 200 <-> fst (body resp) = "error")
    /\ (status resp = 200 -> str_in error_marker (snd (body resp)) = false)
    /\ (status resp = 400 -> s' = s /\ snd (body resp) = ep_missing ep).
Proof.
  intros Hin.
  destruct (handler_outcomes request s Hin)
    as [(e & line & E) | [E | (p & out & s' & _ & E)]];
    rewrite E; eexists _, _; (split; [reflexivity|]).
  - cbn. repeat split; intros; try discriminate; auto; congruence.
  - cbn. repeat split; intros; try discriminate; auto; congruence.
  - unfold respond, error_marker.
    destruct (str_in "--- Wolfgank AI Error" out) eqn:Hm; cbn;
      repeat split; intros; try discriminate; auto; congruence.
Qed.

(** The prefix [s[:n]] and the rest [s[n:]] make up [s]. *)
Lemma slice_split (n : nat) (s : string) : slice_to n s ++ slice_from n s = s.
Proof.
  revert s. induction n as [|n IH]; intros [|c s]; cbn; try reflexivity.
  now rewrite IH.
Qed.



Lemma str_in_slice_to (n : nat) (s : string) : str_in (slice_to n s) s = true.
Proof. rewrite <- (slice_split n s) at 2. apply str_in_prefix. Qed.

(** The backend a call invokes gets the prompt of the call. *)
Lemma invoke_prompt (prompt tool_name : string) (s : state) (b : backend)
      (p : string) (reply : result string) :
  In (Invoke b p reply) (events_since s (after w prompt tool_name s)) ->
  p = prompt.
Proof.
  run_generate w prompt tool_name s. intros Hin.
  destruct Hspec; split_ready; try subst s1; try subst s0;
    revert Hin; simpl_events_since; intros Hin; find_event Hin;
    now injection Hin.
Qed.

(** In the report of a call whose tool name and result text are free of the
    error marker, the marker tells the error. *)
Lemma report_marker (prompt tool_name : string) (s s' : state) (f : frame) :
  attempt_spec w prompt tool_name s s' f ->
  str_in error_marker tool_name = false ->
  str_in error_marker (result_text f) = false ->
  (str_in error_marker (report w tool_name s' f) = true <-> source f = "Error").
Proof.
  intros Hspec Htool Htext. unfold report.
  destruct (attempt_source Hspec) as [[E _] | [N L]].
  - rewrite E. change (negb ("Error" =? "Error")) with false. cbv iota.
    split; [reflexivity|]. intros _.
    apply startswith_str_in, error_report_has_marker.
  - pose proof N as Nb. apply String.eqb_neq in Nb. rewrite Nb. cbn [negb].
    split; [|congruence]. intros Hin. exfalso.
    assert (Hfree : str_in error_marker
              (branded_result tool_name (source f) (timestamp_at w s')
                 (result_text f)) = false)
      by (destruct L as [-> | ->]; now apply branded_result_marker_free).
    congruence.
Qed.

Lemma table_endpoint (ep : endpoint)
      (build : list (string * pyval) -> string -> string) :
  In (ep, build) (prompt_table w str_of_object subscript_error) ->
  In ep (endpoints w str_of_object subscript_error)
  /\ str_in error_marker (ep_tool ep) = false.
Proof.
  intros Hin. split; [exact (in_combine_l _ _ _ _ Hin)|].
  cbn in Hin.
  repeat (destruct Hin as [Hin | Hin]; [injection Hin as <- <-; reflexivity|]).
  contradiction.
Qed.

(** X12. For a request whose required field is a non-empty string, the
    status follows the way the generation ended.  If it ended with the source
    [Error], the answer is 500 with the error report.  If the result text has
    no error marker, the answer is 200 exactly when the source is not
    [Error], and the 200 body is the result report with the tool label of the
    endpoint, the source and the result text in it. *)
Theorem X12_status_follows_outcome (ep : endpoint)
        (build : list (string * pyval) -> string -> string)
        (d : list (string * pyval)) (x : string) (s : state) :
  In (ep, build) (prompt_table w str_of_object subscript_error) ->
  lookup (ep_field ep) d = Some (PStr x) ->
  x <> "" ->
  let o := generate_outcome w (build d x) (ep_tool ep) s in
  exists out,
    returned w (build d x) (ep_tool ep) s = Ok out
    /\ snd (ep_handler ep (Ok (PDict d)) s) = after w (build d x) (ep_tool ep) s
    /\ (source o = "Error" ->
        fst (ep_handler ep (Ok (PDict d)) s)
        = Ok {| status := 500; body := ("error", out) |}
        /\ startswith out error_marker = true)
    /\ (str_in error_marker (result_text o) = false ->
        source o <> "Error" ->
        fst (ep_handler ep (Ok (PDict d)) s)
        = Ok {| status := 200; body := ("result", out) |}
        /\ str_in (ep_tool ep) out = true
        /\ str_in (source o) out = true
        /\ str_in (result_text o) out = true).
Proof.
  intros Hin Hx Hne.
  destruct (table_endpoint Hin) as [_ Htool].
  destruct (@handler_runs ep build d x s Hin Hx Hne) as (out & s' & Hgen & Hh).
  rewrite Hh. revert Hgen.
  run_generate w (build d x) (ep_tool ep) s. intros Hgen.
  injection Hgen as <- <-.
  eexists. split; [reflexivity|]. split; [reflexivity|]. cbn [fst].
  pose proof (report_marker Hspec Htool) as Hmark.
  split.
  - intros Hsrc.
    assert (Hrep : report w (ep_tool ep) s'0 f
                   = error_report (timestamp_at w s'0)
                       (py_or (error_message f)
                          "An unknown error occurred during text generation.")
                       (fallback_info w s'0)).
    { unfold report. now rewrite Hsrc. }
    pose proof (error_report_has_marker (timestamp_at w s'0)
                  (py_or (error_message f)
                     "An unknown error occurred during text generation.")
                  (fallback_info w s'0)) as Hstart.
    rewrite <- Hrep in Hstart. split; [|exact Hstart].
    unfold respond. change "--- Wolfgank AI Error" with error_marker.
    now rewrite (startswith_str_in _ _ Hstart).
  - intros Htext Hsrc.
    assert (Hno : str_in error_marker (report w (ep_tool ep) s'0 f) = false).
    { pose proof (proj1 (Hmark Htext)) as K.
      destruct (str_in error_marker (report w (ep_tool ep) s'0 f));
        [|reflexivity].
      exfalso. now apply Hsrc, K. }
    split.
    { unfold respond. change "--- Wolfgank AI Error" with error_marker.
      now rewrite Hno. }
    unfold report. pose proof Hsrc as Nb. apply String.eqb_neq in Nb.
    rewrite Nb. cbn [negb]. unfold branded_result.
    repeat split; str_in_piece.
Qed.


Lemma str_in_cons_r (n : string) (c : ascii) (h : string) :
  str_in n h = true -> str_in n (String c h) = true.
Proof. intros H. rewrite str_in_cons, H. apply orb_true_r. Qed.

(** X14. For a request whose required field is a non-empty string, any
    backend the handler invokes receives the prompt of the endpoint, and the
    user's text is in it: its first 1000 characters for every endpoint, and
    all of it for every endpoint but [meta_master]. *)
Theorem X14_prompt_embeds_field (ep : endpoint)
        (build : list (string * pyval) -> string -> string)
        (d : list (string * pyval)) (x : string) (s : state)
        (b : backend) (p : string) (reply : result string) :
  In (ep, build) (prompt_table w str_of_object subscript_error) ->
  lookup (ep_field ep) d = Some (PStr x) ->
  x <> "" ->
  In (Invoke b p reply)
     (events_since s (snd (ep_handler ep (Ok (PDict d)) s))) ->
  p = build d x
  /\ str_in (slice_to 1000 x) p = true
  /\ (ep_field ep <> "content" -> str_in x p = true).
Proof.
  intros Hin Hx Hne Hev.
  destruct (@handler_runs ep build d x s Hin Hx Hne) as (out & s' & Hgen & Hh).
  rewrite Hh in Hev. cbn [snd] in Hev.
  assert (Hp : p = build d x).
  { apply (@invoke_prompt (build d x) (ep_tool ep) s b p reply).
    unfold after. now rewrite Hgen. }
  subst p. split; [reflexivity|].
  clear Hgen Hh Hev Hx. cbn in Hin.
  repeat (destruct Hin as [Hin | Hin]; [injection Hin as <- <-|]);
    [..|contradiction]; cbn [ep_field];
    (split;
     [ repeat apply str_in_cons_r;
       first [ apply str_in_app_l, str_in_slice_to
             | repeat first [ apply str_in_prefix | apply str_in_cons_r
                            | apply str_in_app_r ] ]
     | intros Hf; try congruence;
       repeat first [ apply str_in_prefix | apply str_in_cons_r
                    | apply str_in_app_r ] ]).
Qed.

(** X15. The optional field [keywords] defaults to the empty string: for
    [meta_master] and [article_forge], a document without that key is
    handled as the same document with the key bound to an empty string. *)
Theorem X15_keywords_default (d : list (string * pyval)) (s : state) :
  lookup "keywords" d = None ->
  meta_master w str_of_object subscript_error (Ok (PDict d)) s
  = meta_master w str_of_object subscript_error
      (Ok (PDict (("keywords", PStr "") :: d))) s
  /\ article_forge w str_of_object (Ok (PDict d)) s
     = article_forge w str_of_object
         (Ok (PDict (("keywords", PStr "") :: d))) s.
Proof.
  intros Hkw. unfold meta_master, article_forge, dict_get. unfold_monad.
  cbn. rewrite Hkw. split; reflexivity.
Qed.

(** X16. A handler reads its document only through its required field and,
    where it has one, the optional field [keywords]: documents that agree on
    those two keys get the same answer, whatever else they hold. *)
Theorem X16_other_keys_ignored (ep : endpoint) (d d' : list (string * pyval))
        (s : state) :
  In ep (endpoints w str_of_object subscript_error) ->
  lookup (ep_field ep) d = lookup (ep_field ep) d' ->
  lookup "keywords" d = lookup "keywords" d' ->
  ep_handler ep (Ok (PDict d)) s = ep_handler ep (Ok (PDict d')) s.
Proof.
  intros Hin Hf Hkw. cbn in Hin.
  repeat (destruct Hin as [<- | Hin]); [..|contradiction];
    cbn [ep_field ep_handler] in *;
    unfold keyword_hunter, meta_master, article_forge, seo_analyzer, news_radar,
      dict_get;
    unfold_monad; cbn; rewrite ?Hf, ?Hkw; reflexivity.
Qed.


End HandlerRuns.

(** ** The further properties at work on the example worlds *)

Lemma X1_witness :
  hf_pipeline (booted (fallback echoing)) = Some echoing
  /\ count is_construct
       (events_since (booted (fallback echoing))
          (after (fallback echoing) "kopi" "Keyword Hunter"
             (booted (fallback echoing)))) = 0
  /\ hf_pipeline (after (fallback echoing) "kopi" "Keyword Hunter"
                    (booted (fallback echoing))) = Some echoing
  /\ GENERATION_METHOD (after (fallback echoing) "kopi" "Keyword Hunter"
                          (booted (fallback echoing)))
     = GENERATION_METHOD (booted (fallback echoing)).
Proof.
  destruct (X1_generate_frame (fallback echoing) "kopi" "Keyword Hunter"
              (booted (fallback echoing)))
    as (_ & _ & Hsame & Hkeep).
  split; [reflexivity | split; [reflexivity|]].
  split; [exact (Hkeep echoing eq_refl) | exact (proj2 (Hsame eq_refl))].
Defined.

Lemma X2_witness :
  ollama_available (booted (fallback echoing)) = false
  /\ TRANSFORMERS_AVAILABLE (fallback echoing) = true
  /\ hf_pipeline (booted (fallback echoing)) = Some echoing
  /\ count is_construct
       (events_since (booted (fallback echoing))
          (after (fallback echoing) "kopi" "Keyword Hunter"
             (booted (fallback echoing)))) = 0.
Proof.
  split; [reflexivity | split; [reflexivity | split; [reflexivity|]]].
  exact (proj1 (proj2 (@X2_generate_with_handle (fallback echoing) "kopi"
                         "Keyword Hunter" (booted (fallback echoing)) echoing
                         eq_refl eq_refl eq_refl))).
Defined.

Lemma X3_witness :
  (ollama_available initial_state = false
   /\ TRANSFORMERS_AVAILABLE no_model = true
   /\ hf_pipeline initial_state = None
   /\ In (Construct (Raise "model not found"))
        (events_since initial_state
           (after no_model "kopi" "Keyword Hunter" initial_state))
   /\ hf_pipeline (after no_model "kopi" "Keyword Hunter" initial_state) = None
   /\ count is_construct
        (events_since (after no_model "kopi" "Keyword Hunter" initial_state)
           (after no_model "teh" "Meta Master"
              (after no_model "kopi" "Keyword Hunter" initial_state))) = 1)
  /\ (In (Construct (Ok echoing))
        (events_since initial_state
           (after (fallback echoing) "kopi" "Keyword Hunter" initial_state))
      /\ hf_pipeline (after (fallback echoing) "kopi" "Keyword Hunter"
                        initial_state) = Some echoing).
Proof.
  assert (H1 : In (Construct (Raise "model not found"))
                 (events_since initial_state
                    (after no_model "kopi" "Keyword Hunter" initial_state)))
    by (vm_compute; auto).
  assert (H2 : In (Construct (Ok echoing))
                 (events_since initial_state
                    (after (fallback echoing) "kopi" "Keyword Hunter"
                       initial_state)))
    by (vm_compute; auto 6).
  split.
  - destruct (@X3_generate_without_handle no_model "kopi" "Keyword Hunter"
                initial_state eq_refl eq_refl eq_refl)
      as (_ & _ & Hfail & _).
    destruct (Hfail "model not found" H1) as (Hnone & _ & _ & _ & Hagain).
    repeat (split; [reflexivity|]).
    split; [exact H1 | split; [exact Hnone | exact (Hagain "teh" "Meta Master")]].
  - destruct (@X3_generate_without_handle (fallback echoing) "kopi"
                "Keyword Hunter" initial_state eq_refl eq_refl eq_refl)
      as (_ & _ & _ & Hbuilt).
    split; [exact H2 | exact (proj1 (Hbuilt echoing H2))].
Defined.

Lemma X4_witness :
  ollama_available (booted bare) = false
  /\ TRANSFORMERS_AVAILABLE bare = false
  /\ events_since (booted bare)
       (after bare "kopi" "Keyword Hunter" (booted bare))
     = [Log ERROR msg_no_backend].
Proof.
  split; [reflexivity | split; [reflexivity|]].
  exact (proj1 (@X4_generate_without_backend bare "kopi" "Keyword Hunter"
                  (booted bare) eq_refl eq_refl)).
Defined.

Lemma X5_witness :
  In (Invoke Secondary "kopi" (Ok "kopi  kopi lokal"))
     (events_since (booted (fallback echoing))
        (after (fallback echoing) "kopi" "Keyword Hunter"
           (booted (fallback echoing))))
  /\ TRANSFORMERS_AVAILABLE (fallback echoing) = true.
Proof.
  assert (H : In (Invoke Secondary "kopi" (Ok "kopi  kopi lokal"))
                (events_since (booted (fallback echoing))
                   (after (fallback echoing) "kopi" "Keyword Hunter"
                      (booted (fallback echoing)))))
    by (vm_compute; auto).
  split; [exact H|].
  exact (proj1 (proj2 (proj2 (@X5_backend_selection (fallback echoing) "kopi"
                                "Keyword Hunter" (booted (fallback echoing))
                                Secondary "kopi" (Ok "kopi  kopi lokal") H))
                  eq_refl)).
Defined.

Lemma X6_witness :
  source (generate_outcome no_model "kopi" "Keyword Hunter" initial_state)
  = "Error"
  /\ count is_error_log
       (events_since initial_state
          (after no_model "kopi" "Keyword Hunter" initial_state)) <> 0
  /\ exists e,
       In (Construct (Raise e))
          (events_since initial_state
             (after no_model "kopi" "Keyword Hunter" initial_state)).
Proof.
  destruct (X6_error_logged no_model "kopi" "Keyword Hunter" initial_state)
    as (Hiff & _ & Htwo).
  split; [reflexivity|].
  split; [exact (proj1 Hiff eq_refl) | exact (proj1 Htwo eq_refl)].
Defined.

Lemma X7_witness :
  reachable no_model initial_state
  /\ exists ok s',
       initialize_hf_pipeline no_model initial_state = (Ok ok, s')
       /\ (ok = true <-> hf_pipeline s' <> None).
Proof.
  split; [apply reach_import|].
  destruct (@X7_initialize_result no_model initial_state (reach_import no_model))
    as (ok & s' & Hcall & Hiff & _).
  exists ok, s'. split; [exact Hcall | exact Hiff].
Defined.

Lemma X8_witness :
  (In (Probe (Ok tt))
      (events_since initial_state (snd (startup ollama_up initial_state)))
   /\ ollama_available (snd (startup ollama_up initial_state)) = true
   /\ GENERATION_METHOD (snd (startup ollama_up initial_state))
      = "Ollama (gemma3:1b)")
  /\ (In (Probe (Raise "connection refused"))
        (events_since initial_state (snd (startup bare initial_state)))
      /\ ollama_available (snd (startup bare initial_state)) = false).
Proof.
  assert (H1 : In (Probe (Ok tt))
                 (events_since initial_state
                    (snd (startup ollama_up initial_state))))
    by (vm_compute; auto).
  assert (H2 : In (Probe (Raise "connection refused"))
                 (events_since initial_state (snd (startup bare initial_state))))
    by (vm_compute; auto 7).
  split.
  - destruct (X8_startup_outcome ollama_up initial_state)
      as (_ & _ & _ & Hup & _).
    destruct (Hup H1) as (Hoa & Hgm & _).
    split; [exact H1 | split; [exact Hoa | exact Hgm]].
  - destruct (X8_startup_outcome bare initial_state) as (_ & _ & _ & _ & Hdown).
    split; [exact H2 | exact (proj1 (Hdown "connection refused" H2))].
Defined.

Lemma X9_witness :
  reachable (fallback echoing) (booted (fallback echoing))
  /\ hf_pipeline (booted (fallback echoing)) = Some echoing
  /\ fallback_info (fallback echoing) (booted (fallback echoing)) = "".
Proof.
  assert (R : reachable (fallback echoing) (booted (fallback echoing)))
    by (apply reach_startup, reach_import).
  split; [exact R | split; [reflexivity|]].
  exact (proj2 (proj2 (@X9_label_invariant (fallback echoing)
                         (booted (fallback echoing)) echoing R eq_refl))).
Defined.

Lemma X10_witness :
  In ("/api/keyword-hunter", keyword_hunter ollama_up str_of)
     (api_routes ollama_up str_of not_subscriptable)
  /\ not_dict (PList []) = true
  /\ keyword_hunter ollama_up str_of (Ok (PList [])) (booted ollama_up)
     = (Ok {| status := 500;
              body := ("error",
                       "Terjadi kesalahan server: 'list' object has no attribute 'get'") |},
        push (Log ERROR
                "Error in /api/keyword-hunter endpoint: 'list' object has no attribute 'get'")
          (booted ollama_up)).
Proof.
  assert (Hin : In ("/api/keyword-hunter", keyword_hunter ollama_up str_of)
                   (api_routes ollama_up str_of not_subscriptable))
    by (left; reflexivity).
  split; [exact Hin | split; [reflexivity|]].
  exact (proj2 (@X10_malformed_request ollama_up str_of not_subscriptable _ _
                  (booted ollama_up) Hin)
           (PList []) eq_refl).
Defined.

Lemma X11_witness :
  In (mkEndpoint (seo_analyzer ollama_up str_of) "url" "URL diperlukan."
        "SEO Analyzer")
     (endpoints ollama_up str_of not_subscriptable)
  /\ exists resp s',
       seo_analyzer ollama_up str_of (Raise "415 Unsupported Media Type")
         (booted ollama_up)
       = (Ok resp, s')
       /\ (status resp = 200 <-> fst (body resp) = "result").
Proof.
  assert (Hin : In (mkEndpoint (seo_analyzer ollama_up str_of) "url"
                      "URL diperlukan." "SEO Analyzer")
                   (endpoints ollama_up str_of not_subscriptable))
    by (do 3 right; left; reflexivity).
  split; [exact Hin|].
  destruct (@X11_handler_response ollama_up str_of not_subscriptable _
              (Raise "415 Unsupported Media Type") (booted ollama_up) Hin)
    as (resp & s' & Hcall & _ & Hiff & _).
  exists resp, s'. split; [exact Hcall | exact Hiff].
Defined.

Lemma X12_witness :
  In (mkEndpoint (keyword_hunter ollama_up str_of) "topic" "Topik diperlukan."
        "Keyword Hunter",
      fun (_ : list (string * pyval)) x => keyword_hunter_prompt x)
     (prompt_table ollama_up str_of not_subscriptable)
  /\ lookup "topic" [("topic", PStr "kopi lokal")] = Some (PStr "kopi lokal")
  /\ "kopi lokal" <> ""
  /\ source (generate_outcome ollama_up (keyword_hunter_prompt "kopi lokal")
               "Keyword Hunter" (booted ollama_up)) <> "Error"
  /\ exists out,
       fst (keyword_hunter ollama_up str_of
              (Ok (PDict [("topic", PStr "kopi lokal")])) (booted ollama_up))
       = Ok {| status := 200; body := ("result", out) |}
       /\ str_in "Keyword Hunter" out = true
       /\ str_in "Ollama (gemma3:1b)" out = true.
Proof.
  assert (Hin : In (mkEndpoint (keyword_hunter ollama_up str_of) "topic"
                      "Topik diperlukan." "Keyword Hunter",
                    fun (_ : list (string * pyval)) x => keyword_hunter_prompt x)
                   (prompt_table ollama_up str_of not_subscriptable))
    by (left; reflexivity).
  assert (Hne : "kopi lokal" <> "") by discriminate.
  assert (Hsrc : source (generate_outcome ollama_up
                           (keyword_hunter_prompt "kopi lokal")
                           "Keyword Hunter" (booted ollama_up)) <> "Error")
    by (vm_compute; discriminate).
  split; [exact Hin | split; [reflexivity | split; [exact Hne|]]].
  split; [exact Hsrc|].
  destruct (@X12_status_follows_outcome ollama_up str_of not_subscriptable _ _
              [("topic", PStr "kopi lokal")] "kopi lokal" (booted ollama_up)
              Hin eq_refl Hne)
    as (out & _ & _ & _ & Hok).
  destruct (Hok eq_refl Hsrc) as (Hresp & Htool & Hlabel & _).
  exists out. split; [exact Hresp | split; [exact Htool | exact Hlabel]].
Defined.


Lemma X14_witness :
  In (Invoke Primary (news_radar_prompt "kopi") (Ok "1. kopi lokal"))
     (events_since (booted ollama_up)
        (snd (news_radar ollama_up str_of
                (Ok (PDict [("search_query", PStr "kopi")])) (booted ollama_up))))
  /\ str_in "kopi" (news_radar_prompt "kopi") = true.
Proof.
  assert (Hin : In (mkEndpoint (news_radar ollama_up str_of) "search_query"
                      "Query pencarian diperlukan." "News Radar",
                    fun (_ : list (string * pyval)) x => news_radar_prompt x)
                   (prompt_table ollama_up str_of not_subscriptable))
    by (do 4 right; left; reflexivity).
  assert (Hne : "kopi" <> "") by discriminate.
  assert (Hev : In (Invoke Primary (news_radar_prompt "kopi") (Ok "1. kopi lokal"))
                  (events_since (booted ollama_up)
                     (snd (news_radar ollama_up str_of
                             (Ok (PDict [("search_query", PStr "kopi")]))
                             (booted ollama_up)))))
    by (vm_compute; auto).
  split; [exact Hev|].
  destruct (@X14_prompt_embeds_field ollama_up str_of not_subscriptable _ _
              [("search_query", PStr "kopi")] "kopi" (booted ollama_up)
              Primary (news_radar_prompt "kopi") (Ok "1. kopi lokal")
              Hin eq_refl Hne Hev)
    as (_ & _ & Hfull).
  apply Hfull. discriminate.
Defined.

Lemma X15_witness :
  lookup "keywords" [("topic", PStr "kopi lokal")] = None
  /\ article_forge ollama_up str_of
       (Ok (PDict [("topic", PStr "kopi lokal")])) (booted ollama_up)
     = article_forge ollama_up str_of
         (Ok (PDict [("keywords", PStr ""); ("topic", PStr "kopi lokal")]))
         (booted ollama_up).
Proof.
  split; [reflexivity|].
  exact (proj2 (@X15_keywords_default ollama_up str_of not_subscriptable
                  [("topic", PStr "kopi lokal")] (booted ollama_up) eq_refl)).
Defined.

Lemma X16_witness :
  In (mkEndpoint (keyword_hunter ollama_up str_of) "topic" "Topik diperlukan."
        "Keyword Hunter")
     (endpoints ollama_up str_of not_subscriptable)
  /\ lookup "topic" [("topic", PStr "kopi")]
     = lookup "topic" [("lang", PStr "id"); ("topic", PStr "kopi"); ("n", PInt 5)]
  /\ keyword_hunter ollama_up str_of (Ok (PDict [("topic", PStr "kopi")]))
       (booted ollama_up)
     = keyword_hunter ollama_up str_of
         (Ok (PDict [("lang", PStr "id"); ("topic", PStr "kopi"); ("n", PInt 5)]))
         (booted ollama_up).
Proof.
  assert (Hin : In (mkEndpoint (keyword_hunter ollama_up str_of) "topic"
                      "Topik diperlukan." "Keyword Hunter")
                   (endpoints ollama_up str_of not_subscriptable))
    by (left; reflexivity).
  split; [exact Hin | split; [reflexivity|]].
  exact (@X16_other_keys_ignored ollama_up str_of not_subscriptable _
           [("topic", PStr "kopi")]
           [("lang", PStr "id"); ("topic", PStr "kopi"); ("n", PInt 5)]
           (booted ollama_up) Hin eq_refl eq_refl).
Defined.
